(** * httpretry: a shallow embedding of base.go and its retry loop

    The Go package [httpretry] wraps [net/http]: a request configuration
    is built by [NewHttpRequest] and each request method ([HttpGet],
    [HttpPost], [HttpPatch], [HttpPut], [HttpDelete]) builds one
    [http.Request] and hands it to [doRequestWithRetries].

    What lies outside the package is kept abstract in the class
    [Platform]: the [net/url] parser, the network reached through
    [client.Do] and the [uuid] generator.  What the package does to the
    outside is threaded through an explicit [World]: the package variable
    [httpClient], the state of the network, and the list of effects
    performed (sends, sleeps and log lines).  A Go run-time panic is a
    result of its own, [Panic]. *)

From Stdlib Require Import ZArith Lia Strings.Byte Strings.Ascii.
From Stdlib Require Import DecimalString DecimalZ DecimalPos.
From stdpp Require Import gmap strings list fin_maps.

Local Open Scope string_scope.
Local Open Scope Z_scope.

(** ** Data of net/http as the package uses it *)

(** A [[]byte]; the nil slice and the empty slice are both [[]]. *)
Abbreviation bytes := (list Byte.byte).

(** Go's [error] values are compared for being nil and handed back to the
    caller; their message is all the model keeps. *)
Definition Error := string.

(** [http.Header] is [map[string][]string]; a nil map is [None] where the
    code tests for it. *)
Abbreviation http_Header := (gmap string (list string)).

(** [Header.Get]: the first value stored under the key, or the empty
    string when the key is missing or has no values.  The three keys the
    package passes are already in canonical MIME form, so the
    canonicalisation done by [net/textproto] is the identity on them. *)
Definition Header_Get (h : http_Header) (key : string) : string :=
  match h !! key with
  | Some (v :: _) => v
  | _ => ""
  end.

(** [Header.Add] appends to the values of the key. *)
Definition Header_Add (h : http_Header) (key value : string) : http_Header :=
  <[key := (default [] (h !! key) ++ [value])%list]> h.

(** [Header.Set] replaces the values of the key by the single value. *)
Definition Header_Set (h : http_Header) (key value : string) : http_Header :=
  <[key := [value]]> h.

(** A response body is an [io.ReadCloser]; [io.ReadAll] yields the bytes
    read and the error that stopped the reading, if any. *)
Record ReadCloser := mkReadCloser {
  content : bytes;
  failure : option Error
}.

Definition io_ReadAll (b : ReadCloser) : bytes * option Error :=
  (content b, failure b).

Record Response := mkResponse {
  StatusCode : Z;
  Body : ReadCloser
}.

(** An [http.Request] as [http.NewRequest] builds it, over the type of
    parsed URLs: the verb, the URL, the header and the bytes its body
    reader was built over.  The package hands this one object to every
    send.  What a later send still finds in the body reader, which an
    earlier send has read, is the transport's matter and so part of
    [client_Do]. *)
Record Request (U : Type) := mkRequest {
  Method : string;
  ReqURL : U;
  ReqHeader : option http_Header;
  ReqBody : option bytes
}.
Arguments mkRequest {U} _ _ _ _.
Arguments Method {U} _.
Arguments ReqURL {U} _.
Arguments ReqHeader {U} _.
Arguments ReqBody {U} _.

(** What [client.Do] hands back.  The documentation of [net/http] gives
    three shapes: a response and no error; no response and an error; and,
    only when the redirect policy fails, both a response (its body
    already closed) and an error. *)
Inductive DoOutcome :=
| DoOk (resp : Response)
| DoErr (e : Error)
| DoRedirectErr (resp : Response) (e : Error).

Definition do_resp (o : DoOutcome) : option Response :=
  match o with
  | DoOk resp => Some resp
  | DoErr _ => None
  | DoRedirectErr resp _ => Some resp
  end.

Definition do_err (o : DoOutcome) : option Error :=
  match o with
  | DoOk _ => None
  | DoErr e => Some e
  | DoRedirectErr _ e => Some e
  end.

(** A [*http.Client] is the address of an allocated client. *)
Definition Client := nat.

(** A [context.Context] as the package uses it: the values attached with
    [context.WithValue], the newest first. *)
Definition Context := list (string * string).

Definition context_WithValue (ctx : Context) (key val : string) : Context :=
  (key, val) :: ctx.

Fixpoint context_Value (ctx : Context) (key : string) : option string :=
  match ctx with
  | [] => None
  | (k, v) :: rest => if String.eqb k key then Some v else context_Value rest key
  end.

(** ** The outside of the package *)

Class Platform := {
  (** parsed URLs, [url.URL] *)
  url : Type;
  URL_String : url -> string;
  url_Parse : string -> url + Error;
  url_ParseRequestURI : string -> url + Error;
  (** the network and the servers behind the transport *)
  Net : Type;
  client_Do : Client -> Request url -> Net -> DoOutcome * Net;
  (** the [n]-th identifier that [uuid.New().String()] produces *)
  uuid_New : nat -> string
}.

(** [time.Duration] counts nanoseconds. *)
Definition time_Second : Z := 1000000000.

Definition MethodGet := "GET".
Definition MethodPost := "POST".
Definition MethodPatch := "PATCH".
Definition MethodPut := "PUT".
Definition MethodDelete := "DELETE".

(** ** Effects *)

(** The ways a Go function can end other than by returning: a run-time
    panic, and, in the model only, a loop that was given too little
    fuel. *)
Inductive PanicKind := NilDereference.

Inductive Res (A : Type) :=
| Val (a : A)
| Panic (k : PanicKind)
| OutOfFuel.
Arguments Val {A} _.
Arguments Panic {A} _.
Arguments OutOfFuel {A}.

Section Effects.
Context `{P : Platform}.

(** [http.NewRequest] with one of the method constants above: it fails
    exactly when [url.Parse] refuses the URL string. *)
Definition http_NewRequest (method : string) (rawurl : string)
    (body : option bytes) : Request url + Error :=
  match url_Parse rawurl with
  | inl u => inl (mkRequest method u (Some ∅) body)
  | inr e => inr e
  end.

(** What the package does to the outside, one entry per call: the two
    debug dumps, the send with what it brought back, the two log lines
    of the loop with the attempt number they print, the sleep with its
    duration, and the error line a debug helper writes, without a
    request identifier, when its dump fails. *)
Inductive Event :=
| EvDebugRequest (req : Request url) (requestId : option string)
| EvClientDo (client : Client) (req : Request url) (out : DoOutcome)
| EvDebugResponse (resp : Response) (requestId : option string)
| EvWarnf (requestId : option string) (retryCount : Z)
| EvInfof (requestId : option string) (retryCount : Z)
| EvSleep (d : Z)
| EvErrorf (msg : string) (err : Error).

Record World := mkWorld {
  httpClient : option Client;   (* var httpClient *http.Client *)
  allocated : nat;              (* clients allocated so far *)
  net : Net;
  uuids : nat;                  (* identifiers drawn so far *)
  events : list Event           (* effects performed, the newest first *)
}.

Definition M (A : Type) : Type := World -> Res A * World.

Definition ret {A} (a : A) : M A := fun w => (Val a, w).

Definition bind {A B} (m : M A) (k : A -> M B) : M B :=
  fun w =>
    match m w with
    | (Val a, w') => k a w'
    | (Panic p, w') => (Panic p, w')
    | (OutOfFuel, w') => (OutOfFuel, w')
    end.

Definition panic {A} (k : PanicKind) : M A := fun w => (Panic k, w).

Definition out_of_fuel {A} : M A := fun w => (OutOfFuel, w).

Definition emit (e : Event) : M unit :=
  fun w => (Val tt, mkWorld (httpClient w) (allocated w) (net w) (uuids w)
                            (e :: events w)).

End Effects.

Notation "'let*' x ':=' m 'in' k" := (bind m (fun x => k))
  (at level 10, x pattern, m at level 100, k at level 200).

(** ** The package *)

Section Package.
Context `{P : Platform}.

(** [type RetryPredicate func(resp *http.Response, retryCount int) bool];
    a nil function value is [None] in the fields below. *)
Definition RetryPredicate := Response -> Z -> bool.

(** [RetriesMax] is a Go [int] and [RetriesWait] a [time.Duration]; both
    are signed.  The loop counts [retryCount] up from 0 and stops at
    [RetriesMax], so no arithmetic on them can overflow and [Z] carries
    them as they are. *)
Record httpRequest := mkHttpRequest {
  URL : option url;             (* *url.URL, nil is None *)
  Token : string;
  Header : option http_Header;
  RetriesMax : Z;
  RetriesWait : Z;
  IsRetryCondition : option RetryPredicate
}.

Record HttpRequestOptions := mkHttpRequestOptions {
  o_URL : option url;
  o_Token : string;
  o_Header : option http_Header;
  o_RetriesMax : Z;
  o_RetriesWait : Z;
  o_IsRetryCondition : option RetryPredicate
}.

Definition GetSingletonHttpClient : M Client :=
  fun w =>
    match httpClient w with
    | None =>
        let c := allocated w in
        (Val c, mkWorld (Some c) (S c) (net w) (uuids w) (events w))
    | Some c => (Val c, w)
    end.

(** [uuid.New().String()] *)
Definition uuid_New_String : M string :=
  fun w => (Val (uuid_New (uuids w)),
            mkWorld (httpClient w) (allocated w) (net w) (S (uuids w)) (events w)).

(** [client.Do(req)]: one exchange with the network. *)
Definition Do (client : Client) (req : Request url) : M DoOutcome :=
  fun w =>
    let (out, n) := client_Do client req (net w) in
    (Val out, mkWorld (httpClient w) (allocated w) n (uuids w)
                      (EvClientDo client req out :: events w)).

Definition time_Sleep (d : Z) : M unit := emit (EvSleep d).

(** The two debug helpers write one log line each: the dump, tagged with
    the request identifier found in the context, or, when the dump
    fails, an error line that carries no identifier. *)
(** The error of [httputil.DumpRequest(req, true)], if any.  The dump
    reads the body of the request; a request of this package has no
    body or one that [http.NewRequest] built over bytes in memory, and
    reading those does not fail. *)
Definition httputil_DumpRequest (req : Request url) : option Error := None.

(** The error of [httputil.DumpResponse(resp, true)], if any.  The dump
    reads the body of the response to its end, so it fails when the body
    cannot be read. *)
Definition httputil_DumpResponse (resp : Response) : option Error :=
  failure (Body resp).

Definition DebugRequest (ctx : Context) (req : Request url) (token : string) : M unit :=
  match httputil_DumpRequest req with
  | Some err => emit (EvErrorf "DumpRequest failed" err)
  | None => emit (EvDebugRequest req (context_Value ctx "RequestId"))
  end.

Definition DebugResponse (ctx : Context) (resp : Response) (token : string) : M unit :=
  match httputil_DumpResponse resp with
  | Some err => emit (EvErrorf "DumpResponse failed" err)
  | None => emit (EvDebugResponse resp (context_Value ctx "RequestId"))
  end.

Definition doRequest (r : httpRequest) (ctx : Context) (client : Client)
    (req : Request url) : M (option Response * bytes * option Error) :=
  let* _ := DebugRequest ctx req (Token r) in
  let* out := Do client req in
  match do_err out with
  | Some err => ret (do_resp out, [], Some err)
  | None =>
      match do_resp out with
      | None => panic NilDereference
      | Some resp =>
          let* _ := DebugResponse ctx resp (Token r) in
          let (respBody, err) := io_ReadAll (Body resp) in
          ret (Some resp, respBody, err)
      end
  end.

(** How control leaves the [for] statement of [doRequestWithRetries]:
    through the [return] inside it, or by its condition turning false,
    with the local variables as they then stand. *)
Inductive LoopExit :=
| ReturnInside (respBody : bytes) (statusCode : Z) (err : option Error)
| ConditionFalse (resp : option Response) (respBody : bytes) (err : option Error).

(** [r.IsRetryCondition == nil || r.IsRetryCondition(resp, retryCount) == false] *)
Definition stops (r : httpRequest) (resp : Response) (retryCount : Z) : bool :=
  match IsRetryCondition r with
  | None => true
  | Some isRetryCondition => negb (isRetryCondition resp retryCount)
  end.

(** The [for retryCount < r.RetriesMax] statement.  [fuel] bounds the
    number of iterations; [doRequestWithRetries] supplies as many as the
    condition can allow. *)
Fixpoint retry_loop (fuel : nat) (r : httpRequest) (ctx : Context)
    (client : Client) (req : Request url) (retryCount : Z)
    (resp : option Response) (respBody : bytes) (err : option Error)
    : M LoopExit :=
  if retryCount <? RetriesMax r then
    match fuel with
    | O => out_of_fuel
    | S fuel =>
        let retryCount := retryCount + 1 in
        let* id := uuid_New_String in
        let ctx := context_WithValue ctx "RequestId" id in
        let* (resp, respBody, err) := doRequest r ctx client req in
        match err with
        | Some _ =>
            let* _ := emit (EvWarnf (context_Value ctx "RequestId") retryCount) in
            let* _ := time_Sleep (RetriesWait r) in
            retry_loop fuel r ctx client req retryCount resp respBody err
        | None =>
            match resp with
            | None => panic NilDereference
            | Some rsp =>
                if stops r rsp retryCount then
                  ret (ReturnInside respBody (StatusCode rsp) err)
                else
                  let* _ := emit (EvInfof (context_Value ctx "RequestId") retryCount) in
                  let* _ := time_Sleep (RetriesWait r) in
                  retry_loop fuel r ctx client req retryCount resp respBody err
            end
        end
    end
  else ret (ConditionFalse resp respBody err).

Definition doRequestWithRetries (r : httpRequest) (ctx : Context)
    (client : Client) (req : Request url) : M (bytes * Z * option Error) :=
  let* exit := retry_loop (Z.to_nat (RetriesMax r)) r ctx client req 0 None [] None in
  match exit with
  | ReturnInside respBody statusCode err => ret (respBody, statusCode, err)
  | ConditionFalse resp respBody err =>
      match resp with
      | None => panic NilDereference      (* resp.StatusCode on a nil resp *)
      | Some rsp => ret (respBody, StatusCode rsp, err)
      end
  end.

(** [NewHttpRequest]; the header map it returns is the caller's map
    with the defaults written into it. *)
Definition NewHttpRequest (options : HttpRequestOptions) : httpRequest :=
  let retriesMax :=
    if o_RetriesMax options =? 0 then 10 else o_RetriesMax options in
  let retriesWait :=
    if o_RetriesWait options =? 0 then time_Second * 1 else o_RetriesWait options in
  let header :=
    match o_Header options with
    | None => ∅
    | Some h => h
    end in
  let header :=
    if String.eqb (Header_Get header "Accept") "" then
      Header_Add
        (Header_Add
           (Header_Add header "Accept" "application/vnd.api+json")
           "Accept" "application/json")
        "Accept" "*/*"
    else header in
  let header :=
    if String.eqb (Header_Get header "Content-Type") "" then
      Header_Set header "Content-Type" "application/vnd.api+json"
    else header in
  let header :=
    if String.eqb (Header_Get header "Authorization") "" then
      Header_Set header "Authorization" ("Bearer " +:+ o_Token options)
    else header in
  {| URL := o_URL options;
     Token := o_Token options;
     Header := Some header;
     RetriesMax := retriesMax;
     RetriesWait := retriesWait;
     IsRetryCondition := o_IsRetryCondition options |}.

(** [r.URL.String()]: the method dereferences its receiver. *)
Definition URL_deref_String (u : option url) : M string :=
  match u with
  | None => panic NilDereference
  | Some u => ret (URL_String u)
  end.

Definition with_Header (req : Request url) (h : option http_Header) : Request url :=
  mkRequest (Method req) (ReqURL req) h (ReqBody req).

Definition HttpGet (r : httpRequest) (ctx : Context) : M (bytes * Z * option Error) :=
  let* client := GetSingletonHttpClient in
  let* rawurl := URL_deref_String (URL r) in
  match http_NewRequest MethodGet rawurl None with
  | inr err => ret ([], 0, Some err)
  | inl req =>
      let req := with_Header req (Header r) in
      doRequestWithRetries r ctx client req
  end.

Definition HttpPost (r : httpRequest) (ctx : Context) (object : bytes)
    : M (bytes * Z * option Error) :=
  let* client := GetSingletonHttpClient in
  let* rawurl := URL_deref_String (URL r) in
  match http_NewRequest MethodPost rawurl (Some object) with
  | inr err => ret ([], 0, Some err)
  | inl req =>
      let req := with_Header req (Header r) in
      doRequestWithRetries r ctx client req
  end.

Definition HttpPatch (r : httpRequest) (ctx : Context) (object : bytes)
    : M (bytes * Z * option Error) :=
  let* client := GetSingletonHttpClient in
  let* rawurl := URL_deref_String (URL r) in
  match http_NewRequest MethodPatch rawurl (Some object) with
  | inr err => ret ([], 0, Some err)
  | inl req =>
      let req := with_Header req (Header r) in
      doRequestWithRetries r ctx client req
  end.

Definition HttpPut (r : httpRequest) (ctx : Context) (object : bytes)
    : M (bytes * Z * option Error) :=
  let* client := GetSingletonHttpClient in
  let* rawurl := URL_deref_String (URL r) in
  match http_NewRequest MethodPut rawurl (Some object) with
  | inr err => ret ([], 0, Some err)
  | inl req =>
      let req := with_Header req (Header r) in
      doRequestWithRetries r ctx client req
  end.

Definition HttpDelete (r : httpRequest) (ctx : Context) : M (bytes * Z * option Error) :=
  let* client := GetSingletonHttpClient in
  let* rawurl := URL_deref_String (URL r) in
  match url_ParseRequestURI rawurl with
  | inr err => ret ([], 0, Some err)
  | inl u =>
      let urlStr := URL_String u in
      match http_NewRequest MethodDelete urlStr None with
      | inr err => ret ([], 0, Some err)
      | inl req =>
          let req := with_Header req (Header r) in
          doRequestWithRetries r ctx client req
      end
  end.

(** The verb [%d] of [fmt] on a Go [int]: decimal digits, with a minus
    sign in front of a negative number. *)
Definition fmt_d (n : Z) : string := NilZero.string_of_int (Z.to_int n).

(** The line feed that the format string writes as a backslash and an
    n. *)
Definition LF : string := String "010"%char "".

(** [ExtractErrorFromResponse]: [fmt.Errorf] always makes an error; its
    message is what the model keeps.  [urlCalled.String()] dereferences
    the pointer. *)
Definition ExtractErrorFromResponse (expectedStatus actualStatusCode : Z)
    (urlCalled : option url) (responseBody : bytes) : Res Error :=
  match urlCalled with
  | None => Panic NilDereference
  | Some u =>
      Val ("expected " +:+ fmt_d expectedStatus +:+ "," +:+ LF +:+
           "actual: " +:+ fmt_d actualStatusCode +:+ "," +:+ LF +:+
           "URL: " +:+ URL_String u +:+ "," +:+ LF +:+
           "response: " +:+ String.string_of_list_byte responseBody)
  end.

End Package.

(** ** Reading a message of [ExtractErrorFromResponse] back *)

(** [s] without the prefix [p], when it starts with it. *)
Fixpoint strip_prefix (p s : string) : option string :=
  match p with
  | EmptyString => Some s
  | String a p' =>
      match s with
      | EmptyString => None
      | String b s' => if Ascii.eqb a b then strip_prefix p' s' else None
      end
  end.

(** [s] cut at its first comma. *)
Fixpoint split_at_comma (s : string) : string * string :=
  match s with
  | EmptyString => (EmptyString, EmptyString)
  | String c s' =>
      if Ascii.eqb c ","%char then (EmptyString, s')
      else let (before, after) := split_at_comma s' in (String c before, after)
  end.

(** A decimal number read back. *)
Definition read_d (s : string) : option Z :=
  option_map Z.of_int (NilZero.int_of_string s).

(** The two status codes at the head of a message. *)
Definition status_codes_of_message (msg : string) : option (Z * Z) :=
  match strip_prefix "expected " msg with
  | None => None
  | Some s1 =>
      let (expected, s2) := split_at_comma s1 in
      match strip_prefix (LF +:+ "actual: ") s2 with
      | None => None
      | Some s3 =>
          let (actual, _) := split_at_comma s3 in
          match read_d expected, read_d actual with
          | Some e, Some a => Some (e, a)
          | _, _ => None
          end
      end
  end.

(** ** Platforms to run the package on *)

Fixpoint has_space (s : string) : bool :=
  match s with
  | EmptyString => false
  | String a rest => Ascii.eqb a " "%char || has_space rest
  end.

(** A parser that, like [url.Parse], refuses a blank in the URL. *)
Definition toy_Parse (s : string) : string + Error :=
  if has_space s then inr "invalid character in host name" else inl s.

(** [url.ParseRequestURI] refuses the empty string as well. *)
Definition toy_ParseRequestURI (s : string) : string + Error :=
  if String.eqb s "" then inr "empty url"
  else if has_space s then inr "invalid URI for request"
  else inl s.

Definition StatusOK : Z := 200.
Definition StatusTooManyRequests : Z := 429.

(** The handler of the test server of [TestIntegration_HttpPost]: it
    answers 429 while its counter [attempts] is positive and 200 after
    that, each time writing back the body it read. *)
Definition handler (body : bytes) (attempts : Z) : Response * Z :=
  if attempts >? 0 then
    (mkResponse StatusTooManyRequests (mkReadCloser body None), attempts - 1)
  else
    (mkResponse StatusOK (mkReadCloser body None), attempts).

(** The retry condition of the test:
    [return resp.StatusCode != http.StatusOK]. *)
Definition isNotOK : Response -> Z -> bool :=
  fun resp retryCount => negb (StatusCode resp =? StatusOK).

(** The network of the test: every request reaches the test server, whose
    counter is the state. *)
Definition test_server : Platform :=
  {| url := string;
     URL_String := fun u => u;
     url_Parse := toy_Parse;
     url_ParseRequestURI := toy_ParseRequestURI;
     Net := Z;
     client_Do := fun _ req attempts =>
       let (resp, attempts) := handler (default [] (ReqBody req)) attempts in
       (DoOk resp, attempts);
     uuid_New := fun _ => "6ba7b810-9dad-41d1-80b4-00c04fd430c8" |}.

(** A network on which no connection can be made. *)
Definition refusing : Platform :=
  {| url := string;
     URL_String := fun u => u;
     url_Parse := toy_Parse;
     url_ParseRequestURI := toy_ParseRequestURI;
     Net := unit;
     client_Do := fun _ _ n => (DoErr "dial tcp 127.0.0.1:9: connect: connection refused", n);
     uuid_New := fun _ => "6ba7b810-9dad-41d1-80b4-00c04fd430c8" |}.

(** A server that answers every request with the same status and body. *)
Definition constant_server (status : Z) (body : bytes) : Platform :=
  {| url := string;
     URL_String := fun u => u;
     url_Parse := toy_Parse;
     url_ParseRequestURI := toy_ParseRequestURI;
     Net := unit;
     client_Do := fun _ _ n => (DoOk (mkResponse status (mkReadCloser body None)), n);
     uuid_New := fun _ => "6ba7b810-9dad-41d1-80b4-00c04fd430c8" |}.

(** ** Inputs of the examples *)

(** A process that has made no call yet, facing the network [n]. *)
Definition fresh_world `{P : Platform} (n : Net) : World :=
  mkWorld None O n O [].

Definition refused_world : @World refusing := @fresh_world refusing tt.

(** The test server before its first request, five refusals ahead. *)
Definition test_world : @World test_server := @fresh_world test_server 5.

(** Options that set the URL and leave everything else unset. *)
Definition refused_options : @HttpRequestOptions refusing :=
  @mkHttpRequestOptions refusing (Some "http://127.0.0.1:9/") "" None 0 0 None.

(** The request of [TestIntegration_HttpPost]: only the URL and the
    retry condition are set. *)
Definition requestBody : bytes :=
  String.list_byte_of_string "f47ac10b-58cc-4372-a567-0e02b2c3d479".

Definition api_options : @HttpRequestOptions test_server :=
  @mkHttpRequestOptions test_server (Some "http://127.0.0.1:38291") "" None 0 0
    (Some isNotOK).

Definition api : @httpRequest test_server := NewHttpRequest api_options.




(** A server that answers 404, asked without a retry condition. *)
Definition not_found_body : bytes := String.list_byte_of_string "no such page".

Definition not_found_world : @World (constant_server 404 not_found_body) :=
  @fresh_world (constant_server 404 not_found_body) tt.

Definition plain_options : @HttpRequestOptions (constant_server 404 not_found_body) :=
  @mkHttpRequestOptions (constant_server 404 not_found_body)
    (Some "http://127.0.0.1:8080/missing") "" None 0 0 None.

Definition get_missing : Request string :=
  mkRequest MethodGet "http://127.0.0.1:8080/missing" (Some ∅) None.

(** Options with a blank in the URL. *)
Definition blank_options : @HttpRequestOptions test_server :=
  @mkHttpRequestOptions test_server (Some "http://exa mple.com/") "" None 0 0 None.

(** Options with a negative number of retries. *)
Definition negative_options : @HttpRequestOptions test_server :=
  @mkHttpRequestOptions test_server (Some "http://127.0.0.1:38291") "" None (-1) 0 None.

(** Options whose caller has set headers that begin with an empty
    value. *)
Definition emptied_headers : http_Header :=
  <[ "Authorization" := [""] ]>
    (<[ "Content-Type" := [""; "text/plain"] ]> ∅).

Definition emptied_options : @HttpRequestOptions test_server :=
  @mkHttpRequestOptions test_server (Some "http://127.0.0.1:38291") "secret"
    (Some emptied_headers) 0 0 None.

(** A server reached over a connection that is reset twice before a
    request gets through; the state counts the sends made. *)
Definition flaky_body : bytes := String.list_byte_of_string "pong".

Definition flaky_server : Platform :=
  {| url := string;
     URL_String := fun u => u;
     url_Parse := toy_Parse;
     url_ParseRequestURI := toy_ParseRequestURI;
     Net := nat;
     client_Do := fun _ _ n =>
       if (n <? 2)%nat
       then (DoErr "read tcp 127.0.0.1:8080: connection reset by peer", S n)
       else (DoOk (mkResponse 200 (mkReadCloser flaky_body None)), S n);
     uuid_New := fun _ => "6ba7b810-9dad-41d1-80b4-00c04fd430c8" |}.

Definition flaky_options : @HttpRequestOptions flaky_server :=
  @mkHttpRequestOptions flaky_server (Some "http://127.0.0.1:8080/ping") "" None 0 0 None.

Definition get_ping : Request string :=
  mkRequest MethodGet "http://127.0.0.1:8080/ping" (Some ∅) None.

(** A server that redirects for ever: the client's redirect policy gives
    up and hands back the last redirect together with its error. *)
Definition redirect_response : Response := mkResponse 302 (mkReadCloser [] None).

Definition redirecting : Platform :=
  {| url := string;
     URL_String := fun u => u;
     url_Parse := toy_Parse;
     url_ParseRequestURI := toy_ParseRequestURI;
     Net := unit;
     client_Do := fun _ _ n =>
       (DoRedirectErr redirect_response "stopped after 10 redirects", n);
     uuid_New := fun _ => "6ba7b810-9dad-41d1-80b4-00c04fd430c8" |}.

Definition redirected_options : @HttpRequestOptions redirecting :=
  @mkHttpRequestOptions redirecting (Some "http://127.0.0.1:8080/loop") "" None 2 0 None.

Definition get_loop : Request string :=
  mkRequest MethodGet "http://127.0.0.1:8080/loop" (Some ∅) None.

(** A configuration without a URL. *)
Definition no_URL_options : @HttpRequestOptions test_server :=
  @mkHttpRequestOptions test_server None "" None 0 0 None.

(** A configuration whose URL is the empty one: [url.Parse] accepts its
    string, [url.ParseRequestURI] does not. *)
Definition empty_URL_options : @HttpRequestOptions test_server :=
  @mkHttpRequestOptions test_server (Some "") "" None 0 0 None.

(** The test server seen by a process that has already logged, drawn
    identifiers and made its client. *)
Definition later_test_world : @World test_server :=
  @mkWorld test_server (Some 7%nat) 8%nat 5 3%nat [EvSleep 1].

(** ** Reading the list of effects *)

Section Trace.
Context `{P : Platform}.

Definition is_send (e : Event) : bool :=
  match e with
  | EvClientDo _ _ _ => true
  | _ => false
  end.

Definition is_sleep (e : Event) : bool :=
  match e with
  | EvSleep _ => true
  | _ => false
  end.

Fixpoint count (f : Event -> bool) (evs : list Event) : nat :=
  match evs with
  | [] => O
  | e :: rest => ((if f e then 1 else 0) + count f rest)%nat
  end.

(** The number of attempts and of waits in a list of effects. *)
Definition sends (evs : list Event) : nat := count is_send evs.
Definition sleeps (evs : list Event) : nat := count is_sleep evs.

(** What the most recent send brought back. *)
Fixpoint last_send (evs : list Event) : option DoOutcome :=
  match evs with
  | [] => None
  | EvClientDo _ _ out :: _ => Some out
  | _ :: rest => last_send rest
  end.

(** The local variables [resp], [respBody], [err] after [doRequest]
    has seen the outcome [out]. *)
Definition locals_after (out : DoOutcome) : option Response * bytes * option Error :=
  match out with
  | DoOk resp => (Some resp, content (Body resp), failure (Body resp))
  | DoErr e => (None, [], Some e)
  | DoRedirectErr resp e => (Some resp, [], Some e)
  end.

(** Whether the iteration numbered [retryCount] goes on to the wait
    after the outcome [out]. *)
Definition continues (r : httpRequest) (retryCount : Z) (out : DoOutcome) : bool :=
  match out with
  | DoOk resp =>
      match failure (Body resp) with
      | Some _ => true
      | None => negb (stops r resp retryCount)
      end
  | _ => true
  end.

(** The effects of one iteration that goes on to the wait, the newest
    first. *)
Definition iteration_events (r : httpRequest) (client : Client)
    (req : Request url) (id : string) (retryCount : Z) (out : DoOutcome)
    : list Event :=
  EvSleep (RetriesWait r)
  :: match locals_after out with
     | (_, _, Some _) => EvWarnf (Some id) retryCount
     | (_, _, None) => EvInfof (Some id) retryCount
     end
  :: (match out with
      | DoOk resp =>
          match httputil_DumpResponse resp with
          | Some err => [EvErrorf "DumpResponse failed" err]
          | None => [EvDebugResponse resp (Some id)]
          end
      | _ => []
      end
      ++ [EvClientDo client req out; EvDebugRequest req (Some id)])%list.

(** The effects of the iteration that returns from inside the loop. *)
Definition returning_events (client : Client) (req : Request url)
    (id : string) (resp : Response) : list Event :=
  [EvDebugResponse resp (Some id); EvClientDo client req (DoOk resp);
   EvDebugRequest req (Some id)].

Definition world_after (w : World) (n : Net) (evs : list Event) : World :=
  mkWorld (httpClient w) (allocated w) n (S (uuids w)) (evs ++ events w)%list.

(** The server answers anything but 200 to the next [k] sends of [req]
    and then answers 200 with the body of [req]. *)
Inductive recovers_after (client : Client) (req : Request url) (resp200 : Response)
    : nat -> Net -> Prop :=
| recovers_now n n' :
    client_Do client req n = (DoOk resp200, n') ->
    StatusCode resp200 = StatusOK ->
    io_ReadAll (Body resp200) = (default [] (ReqBody req), None) ->
    recovers_after client req resp200 O n
| recovers_later k n n' resp :
    client_Do client req n = (DoOk resp, n') ->
    StatusCode resp <> StatusOK ->
    failure (Body resp) = None ->
    recovers_after client req resp200 k n' ->
    recovers_after client req resp200 (S k) n.

(** A call that hands back the error [err] with an empty body and status
    0, having sent nothing and waited for nothing. *)
Definition refused_without_sending
    (run : Res (bytes * Z * option Error) * World) (err : Error) (w : World) : Prop :=
  fst run = Val ([], 0, Some err) /\
  events (snd run) = events w /\
  net (snd run) = net w.

(** The headers [NewHttpRequest] fills in. *)
Definition default_Accept : list string :=
  ["application/vnd.api+json"; "application/json"; "*/*"].
Definition default_Content_Type : string := "application/vnd.api+json".

(** What [doRequestWithRetries] does once the loop has left through
    [exit]. *)
Definition after_loop (exit : LoopExit) : Res (bytes * Z * option Error) :=
  match exit with
  | ReturnInside respBody statusCode err => Val (respBody, statusCode, err)
  | ConditionFalse None _ _ => Panic NilDereference
  | ConditionFalse (Some rsp) respBody err => Val (respBody, StatusCode rsp, err)
  end.

(** What is known when the loop, entered with [retryCount] and the given
    local variables, has left through [exit] after the effects [new]. *)
Definition exit_spec (r : httpRequest) (client : Client) (req : Request url)
    (retryCount : Z) (resp : option Response) (respBody : bytes)
    (err : option Error) (exit : LoopExit) (new : list Event) : Prop :=
  let k := Z.to_nat (RetriesMax r - retryCount) in
  match exit with
  | ConditionFalse resp' respBody' err' =>
      sends new = k /\ sleeps new = k /\
      match last_send new with
      | None => k = O /\ new = [] /\ (resp', respBody', err') = (resp, respBody, err)
      | Some out =>
          (exists n, fst (client_Do client req n) = out) /\
          continues r (RetriesMax r) out = true /\
          (resp', respBody', err') = locals_after out /\
          exists rest, new = EvSleep (RetriesWait r) :: rest
      end
  | ReturnInside respBody' statusCode err' =>
      exists rsp id rest,
        (exists n, fst (client_Do client req n) = DoOk rsp) /\
        failure (Body rsp) = None /\
        stops r rsp (retryCount + Z.of_nat (sends new)) = true /\
        new = (returning_events client req id rsp ++ rest)%list /\
        (1 <= sends new <= k)%nat /\
        S (sleeps new) = sends new /\
        (respBody', statusCode, err') = (content (Body rsp), StatusCode rsp, None)
  end.

(** The [k] next sends of [req], numbered from [retryCount + 1], each
    end in a way that makes the loop go on, and the one after them
    brings the response [rsp], read in full, at which the loop stops. *)
Inductive settles_after (r : httpRequest) (client : Client) (req : Request url)
    (rsp : Response) : Z -> nat -> Net -> Prop :=
| settles_now retryCount n n' :
    client_Do client req n = (DoOk rsp, n') ->
    failure (Body rsp) = None ->
    stops r rsp (retryCount + 1) = true ->
    settles_after r client req rsp retryCount O n
| settles_later retryCount k n n' out :
    client_Do client req n = (out, n') ->
    continues r (retryCount + 1) out = true ->
    settles_after r client req rsp (retryCount + 1) k n' ->
    settles_after r client req rsp retryCount (S k) n.

(** What a call hands back, read off the outcome of its last send. *)
Definition result_of_last_send (o : option DoOutcome)
    : Res (bytes * Z * option Error) :=
  match o with
  | None => Panic NilDereference
  | Some out =>
      match locals_after out with
      | (None, _, _) => Panic NilDereference
      | (Some rsp, respBody, err) => Val (respBody, StatusCode rsp, err)
      end
  end.

(** A request identifier drawn between the [lo]-th and the [hi]-th draw. *)
Definition drawn_between (lo hi : nat) (id : option string) : Prop :=
  exists j, (lo <= j < hi)%nat /\ id = Some (uuid_New j).

(** Two requests with the same verb, URL and header.  What a send still
    finds in the body of a request that was sent before is left to the
    transport, so the body is not compared. *)
Definition same_request_line (q req : Request url) : Prop :=
  Method q = Method req /\ ReqURL q = ReqURL req /\ ReqHeader q = ReqHeader req.

(** An effect that belongs to a call of [doRequestWithRetries] with the
    given configuration, client and request, whose attempts drew the
    identifiers from [lo] up to [hi].  The one line without an
    identifier is the error line of a response dump that failed. *)
Definition event_of_call (r : httpRequest) (client : Client) (req : Request url)
    (lo hi : nat) (ev : Event) : Prop :=
  match ev with
  | EvClientDo c q _ => c = client /\ same_request_line q req
  | EvSleep d => d = RetriesWait r
  | EvDebugRequest q id => same_request_line q req /\ drawn_between lo hi id
  | EvDebugResponse _ id => drawn_between lo hi id
  | EvWarnf id retryCount => drawn_between lo hi id /\ 1 <= retryCount <= RetriesMax r
  | EvInfof id retryCount => drawn_between lo hi id /\ 1 <= retryCount <= RetriesMax r
  | EvErrorf msg _ => msg = "DumpResponse failed"
  end.

(** The request of the oldest send in a list of effects. *)
Fixpoint first_send (evs : list Event) : option (Request url) :=
  match evs with
  | [] => None
  | ev :: older =>
      match first_send older with
      | Some q => Some q
      | None =>
          match ev with
          | EvClientDo _ q _ => Some q
          | _ => None
          end
      end
  end.

(** A call that panicked on a nil pointer, having sent nothing and waited
    for nothing. *)
Definition panicked_without_sending
    (run : Res (bytes * Z * option Error) * World) (w : World) : Prop :=
  fst run = Panic NilDereference /\
  events (snd run) = events w /\
  net (snd run) = net w.

(** The client a request method works with when it starts in [w]. *)
Definition client_of (w : World) : Client :=
  match httpClient w with
  | Some c => c
  | None => allocated w
  end.

(** A finished call of a request method that started in [w]: every
    effect it added belongs to a call with the verb, URL and header of
    [req] made through the client that [httpClient] holds afterwards,
    and its first send, if any attempt is allowed, was given [req]
    itself, body included. *)
Definition call_made_with (r : httpRequest) (req : Request url) (w : World)
    (run : Res (bytes * Z * option Error) * World) : Prop :=
  exists new,
    httpClient (snd run) = Some (client_of w) /\
    events (snd run) = (new ++ events w)%list /\
    Forall (event_of_call r (client_of w) req (uuids w) (uuids (snd run))) new /\
    (1 <= RetriesMax r -> first_send new = Some req).

(** After a call of a request method that started in [w], [httpClient]
    holds the client the call worked with, and a client was allocated
    only if there was none. *)
Definition client_kept_or_made (w : World)
    (run : Res (bytes * Z * option Error) * World) : Prop :=
  httpClient (snd run) = Some (client_of w) /\
  allocated (snd run)
    = match httpClient w with
      | Some _ => allocated w
      | None => S (allocated w)
      end.

End Trace.

(** * Properties *)

Section Proofs.
Context `{P : Platform}.

Lemma count_app f (a b : list Event) :
  count f (a ++ b) = (count f a + count f b)%nat.
Proof. induction a as [|e a IH]; simpl; [reflexivity | rewrite IH; lia]. Qed.

Lemma last_send_app (a b : list Event) :
  last_send (a ++ b) =
  match last_send a with
  | Some out => Some out
  | None => last_send b
  end.
Proof.
  induction a as [|e a IH]; simpl; [reflexivity|].
  destruct e; auto.
Qed.

Lemma retry_loop_eq fuel r ctx client req retryCount resp respBody err :
  retry_loop (S fuel) r ctx client req retryCount resp respBody err =
  if retryCount <? RetriesMax r then
    let retryCount := retryCount + 1 in
    let* id := uuid_New_String in
    let ctx := context_WithValue ctx "RequestId" id in
    let* (resp, respBody, err) := doRequest r ctx client req in
    match err with
    | Some _ =>
        let* _ := emit (EvWarnf (context_Value ctx "RequestId") retryCount) in
        let* _ := time_Sleep (RetriesWait r) in
        retry_loop fuel r ctx client req retryCount resp respBody err
    | None =>
        match resp with
        | None => panic NilDereference
        | Some rsp =>
            if stops r rsp retryCount then
              ret (ReturnInside respBody (StatusCode rsp) err)
            else
              let* _ := emit (EvInfof (context_Value ctx "RequestId") retryCount) in
              let* _ := time_Sleep (RetriesWait r) in
              retry_loop fuel r ctx client req retryCount resp respBody err
        end
    end
  else ret (ConditionFalse resp respBody err).
Proof. reflexivity. Qed.

(** One iteration that goes on to the wait. *)
Lemma retry_loop_continue fuel r ctx client req retryCount resp respBody err w out n :
  retryCount < RetriesMax r ->
  client_Do client req (net w) = (out, n) ->
  continues r (retryCount + 1) out = true ->
  retry_loop (S fuel) r ctx client req retryCount resp respBody err w =
  let id := uuid_New (uuids w) in
  let '(resp', respBody', err') := locals_after out in
  retry_loop fuel r (context_WithValue ctx "RequestId" id) client req
    (retryCount + 1) resp' respBody' err'
    (world_after w n (iteration_events r client req id (retryCount + 1) out)).
Proof.
  intros Hlt Hdo Hc. rewrite retry_loop_eq.
  apply Z.ltb_lt in Hlt. rewrite Hlt.
  unfold bind, uuid_New_String, doRequest, bind, DebugRequest,
    httputil_DumpRequest, Do, emit; simpl.
  rewrite Hdo. unfold continues in Hc.
  unfold world_after, iteration_events, locals_after.
  destruct out as [rsp|e|rsp e]; simpl.
  - unfold DebugResponse, httputil_DumpResponse, emit, io_ReadAll, ret,
      time_Sleep, emit; simpl.
    destruct (failure (Body rsp)) eqn:Hf; simpl.
    + reflexivity.
    + apply negb_true_iff in Hc. rewrite Hc. reflexivity.
  - reflexivity.
  - reflexivity.
Qed.

(** The iteration that returns from inside the loop. *)
Lemma retry_loop_return fuel r ctx client req retryCount resp respBody err w rsp n :
  retryCount < RetriesMax r ->
  client_Do client req (net w) = (DoOk rsp, n) ->
  failure (Body rsp) = None ->
  stops r rsp (retryCount + 1) = true ->
  retry_loop (S fuel) r ctx client req retryCount resp respBody err w =
  (Val (ReturnInside (content (Body rsp)) (StatusCode rsp) None),
   world_after w n (returning_events client req (uuid_New (uuids w)) rsp)).
Proof.
  intros Hlt Hdo Hf Hs. rewrite retry_loop_eq.
  apply Z.ltb_lt in Hlt. rewrite Hlt.
  unfold bind, uuid_New_String, doRequest, bind, DebugRequest,
    httputil_DumpRequest, Do, emit; simpl.
  rewrite Hdo. simpl.
  unfold DebugResponse, httputil_DumpResponse, emit, io_ReadAll, ret; simpl.
  rewrite Hf, Hs. reflexivity.
Qed.

Lemma retry_loop_done fuel r ctx client req retryCount resp respBody err w :
  RetriesMax r <= retryCount ->
  retry_loop fuel r ctx client req retryCount resp respBody err w =
  (Val (ConditionFalse resp respBody err), w).
Proof.
  intros Hge. apply Z.ltb_ge in Hge.
  destruct fuel; simpl; rewrite Hge; reflexivity.
Qed.

Lemma sends_iteration r client req id retryCount out :
  sends (iteration_events r client req id retryCount out) = 1%nat.
Proof.
  unfold iteration_events, httputil_DumpResponse.
  destruct out as [rsp|e|rsp e]; simpl; try reflexivity.
  destruct (failure (Body rsp)); reflexivity.
Qed.

Lemma sleeps_iteration r client req id retryCount out :
  sleeps (iteration_events r client req id retryCount out) = 1%nat.
Proof.
  unfold iteration_events, httputil_DumpResponse.
  destruct out as [rsp|e|rsp e]; simpl; try reflexivity.
  destruct (failure (Body rsp)); reflexivity.
Qed.

Lemma last_send_iteration r client req id retryCount out :
  last_send (iteration_events r client req id retryCount out) = Some out.
Proof.
  unfold iteration_events, httputil_DumpResponse.
  destruct out as [rsp|e|rsp e]; simpl; try reflexivity.
  destruct (failure (Body rsp)); reflexivity.
Qed.

Lemma continues_false r retryCount out :
  continues r retryCount out = false ->
  exists rsp, out = DoOk rsp /\ failure (Body rsp) = None /\
              stops r rsp retryCount = true.
Proof.
  destruct out as [rsp|e|rsp e]; simpl; try discriminate.
  destruct (failure (Body rsp)) eqn:Hf; try discriminate.
  intros H. apply negb_false_iff in H. eauto.
Qed.

Lemma exit_spec_done r client req retryCount resp respBody err :
  RetriesMax r <= retryCount ->
  exit_spec r client req retryCount resp respBody err
    (ConditionFalse resp respBody err) [].
Proof.
  intros Hge. unfold exit_spec, sends, sleeps. simpl.
  assert (Z.to_nat (RetriesMax r - retryCount) = O) as -> by lia.
  repeat split.
Qed.

Lemma exit_spec_step r client req retryCount resp respBody err out n id exit new :
  retryCount < RetriesMax r ->
  fst (client_Do client req n) = out ->
  continues r (retryCount + 1) out = true ->
  (forall resp1 body1 err1,
     locals_after out = (resp1, body1, err1) ->
     exit_spec r client req (retryCount + 1) resp1 body1 err1 exit new) ->
  exit_spec r client req retryCount resp respBody err exit
    (new ++ iteration_events r client req id (retryCount + 1) out).
Proof.
  intros Hlt Hdo Hc Hspec.
  destruct (locals_after out) as [[resp1 body1] err1] eqn:Hloc.
  specialize (Hspec _ _ _ eq_refl).
  set (it := iteration_events r client req id (retryCount + 1) out).
  assert (Hse : sends it = 1%nat) by apply sends_iteration.
  assert (Hsl : sleeps it = 1%nat) by apply sleeps_iteration.
  assert (Hla : last_send it = Some out) by apply last_send_iteration.
  assert (Hk : Z.to_nat (RetriesMax r - retryCount)
               = S (Z.to_nat (RetriesMax r - (retryCount + 1)))) by lia.
  unfold exit_spec in *. rewrite Hk. clear Hk.
  destruct exit as [b s e|resp' body' err'].
  - destruct Hspec as (rsp & id' & rest & Hsrc & Hf & Hs & Hnew & Hb & Hsl' & Hres).
    exists rsp, id', (rest ++ it)%list.
    unfold sends, sleeps in *. rewrite !count_app, Hse, Hsl.
    split; [assumption|]. split; [assumption|].
    split.
    { replace (retryCount + Z.of_nat (count is_send new + 1))
        with (retryCount + 1 + Z.of_nat (count is_send new)) by lia.
      assumption. }
    split; [rewrite Hnew, <- app_assoc; reflexivity|].
    split; [lia|]. split; [lia|]. assumption.
  - destruct Hspec as (Hse' & Hsl' & Hlast).
    unfold sends, sleeps in *. rewrite !count_app, Hse, Hsl.
    split; [lia|]. split; [lia|].
    fold (sends new) in *. rewrite last_send_app.
    destruct (last_send new) as [out1|].
    + destruct Hlast as (Hsrc & Hcont & Hl & rest & Hnew).
      split; [assumption|]. split; [assumption|]. split; [assumption|].
      exists (rest ++ it)%list. rewrite Hnew. reflexivity.
    + destruct Hlast as (Hk0 & Hnew & Hl).
      rewrite Hla.
      assert (RetriesMax r = retryCount + 1) as -> by lia.
      split; [eauto|]. split; [assumption|]. split; [congruence|].
      rewrite Hnew. simpl. unfold it, iteration_events. eauto.
Qed.

Lemma exit_spec_return r client req retryCount resp respBody err rsp n id :
  retryCount < RetriesMax r ->
  fst (client_Do client req n) = DoOk rsp ->
  failure (Body rsp) = None ->
  stops r rsp (retryCount + 1) = true ->
  exit_spec r client req retryCount resp respBody err
    (ReturnInside (content (Body rsp)) (StatusCode rsp) None)
    (returning_events client req id rsp).
Proof.
  intros Hlt Hdo Hf Hs. unfold exit_spec.
  exists rsp, id, [].
  split; [eauto|]. split; [assumption|].
  split; [exact Hs|].
  split; [reflexivity|].
  unfold sends, sleeps. simpl.
  split; [lia|]. split; reflexivity.
Qed.

(** The loop always leaves, and [exit_spec] tells how.  Neither the
    package variable nor the allocation count is touched. *)
Lemma retry_loop_spec fuel :
  forall r ctx client req retryCount resp respBody err w,
    (Z.to_nat (RetriesMax r - retryCount) <= fuel)%nat ->
    exists exit w' new,
      retry_loop fuel r ctx client req retryCount resp respBody err w = (Val exit, w') /\
      events w' = (new ++ events w)%list /\
      httpClient w' = httpClient w /\
      allocated w' = allocated w /\
      exit_spec r client req retryCount resp respBody err exit new.
Proof.
  induction fuel as [|fuel IH]; intros r ctx client req c resp respBody err w Hfuel.
  - assert (Hge : RetriesMax r <= c) by lia.
    exists (ConditionFalse resp respBody err), w, [].
    rewrite retry_loop_done by assumption.
    do 4 (split; [reflexivity|]). by apply exit_spec_done.
  - destruct (Z_lt_le_dec c (RetriesMax r)) as [Hlt|Hge].
    + destruct (client_Do client req (net w)) as [out n] eqn:Hdo.
      assert (Hsrc : fst (client_Do client req (net w)) = out) by (rewrite Hdo; reflexivity).
      destruct (continues r (c + 1) out) eqn:Hc.
      * rewrite (retry_loop_continue _ _ _ _ _ _ _ _ _ _ _ _ Hlt Hdo Hc).
        cbv zeta.
        destruct (locals_after out) as [[resp1 body1] err1] eqn:Hloc.
        set (id := uuid_New (uuids w)).
        set (it := iteration_events r client req id (c + 1) out).
        destruct (IH r (context_WithValue ctx "RequestId" id) client req (c + 1)
                    resp1 body1 err1 (world_after w n it))
          as (exit & w' & new1 & Hrun & Hev & Hcl & Hal & Hspec); [lia|].
        exists exit, w', (new1 ++ it)%list.
        split; [assumption|].
        split; [rewrite Hev, <- app_assoc; reflexivity|].
        split; [rewrite Hcl; reflexivity|].
        split; [rewrite Hal; reflexivity|].
        apply (exit_spec_step _ _ _ _ _ _ _ _ _ _ _ _ Hlt Hsrc Hc).
        intros resp2 body2 err2 Heq. rewrite Hloc in Heq.
        injection Heq as <- <- <-. assumption.
      * destruct (continues_false _ _ _ Hc) as (rsp & -> & Hf & Hs).
        rewrite (retry_loop_return _ _ _ _ _ _ _ _ _ _ _ _ Hlt Hdo Hf Hs).
        eexists _, _, (returning_events client req (uuid_New (uuids w)) rsp).
        do 4 (split; [reflexivity|]).
        by apply (exit_spec_return _ _ _ _ _ _ _ _ (net w)).
    + exists (ConditionFalse resp respBody err), w, [].
      rewrite retry_loop_done by assumption.
      do 4 (split; [reflexivity|]). by apply exit_spec_done.
Qed.

Lemma doRequestWithRetries_after_loop r ctx client req w exit w' :
  retry_loop (Z.to_nat (RetriesMax r)) r ctx client req 0 None [] None w = (Val exit, w') ->
  doRequestWithRetries r ctx client req w = (after_loop exit, w').
Proof.
  intros Hrun. unfold doRequestWithRetries, bind. rewrite Hrun.
  destruct exit as [b s e|[rsp|] b e]; reflexivity.
Qed.

(** [doRequestWithRetries] with the loop's own account of its run. *)
Lemma doRequestWithRetries_spec r ctx client req w :
  exists exit w' new,
    retry_loop (Z.to_nat (RetriesMax r)) r ctx client req 0 None [] None w = (Val exit, w') /\
    doRequestWithRetries r ctx client req w = (after_loop exit, w') /\
    events w' = (new ++ events w)%list /\
    httpClient w' = httpClient w /\
    allocated w' = allocated w /\
    exit_spec r client req 0 None [] None exit new.
Proof.
  destruct (retry_loop_spec (Z.to_nat (RetriesMax r)) r ctx client req 0 None [] None w)
    as (exit & w' & new & Hrun & Hev & Hcl & Hal & Hspec).
  { rewrite Z.sub_0_r. reflexivity. }
  exists exit, w', new.
  split; [assumption|].
  split; [by apply doRequestWithRetries_after_loop|].
  auto.
Qed.

(** The loop is given enough fuel: a call ends by returning or by a
    panic. *)
Lemma doRequestWithRetries_terminates r ctx client req w :
  fst (doRequestWithRetries r ctx client req w) <> OutOfFuel.
Proof.
  destruct (doRequestWithRetries_spec r ctx client req w)
    as (exit & w' & new & _ & Hrun & _).
  rewrite Hrun. simpl.
  destruct exit as [b s e|[rsp|] b e]; discriminate.
Qed.

(** When every send ends in an error that brings no response, the call
    makes all its attempts, waits after each, and then panics on
    [resp.StatusCode]. *)
Lemma all_sends_fail_panics r ctx client req w :
  1 <= RetriesMax r ->
  (forall n, exists e, fst (client_Do client req n) = DoErr e) ->
  exists w' new,
    doRequestWithRetries r ctx client req w = (Panic NilDereference, w') /\
    events w' = (new ++ events w)%list /\
    sends new = Z.to_nat (RetriesMax r) /\
    sleeps new = Z.to_nat (RetriesMax r).
Proof.
  intros HN Hfail.
  destruct (doRequestWithRetries_spec r ctx client req w)
    as (exit & w' & new & _ & Hrun & Hev & _ & _ & Hspec).
  exists w', new. rewrite Hrun. unfold exit_spec in Hspec.
  rewrite Z.sub_0_r in Hspec.
  destruct exit as [b s e|resp' b e].
  - destruct Hspec as (rsp & _ & _ & [n Hn] & _).
    destruct (Hfail n) as [e' He']. congruence.
  - destruct Hspec as (Hse & Hsl & Hlast).
    destruct (last_send new) as [out|].
    + destruct Hlast as ([n Hn] & _ & Hloc & _).
      destruct (Hfail n) as [e' He']. rewrite He' in Hn. subst out.
      simpl in Hloc. injection Hloc as -> -> ->. auto.
    + destruct Hlast as (Hk & _). lia.
Qed.


(** C4.  With at least one attempt allowed, when the first send brings a
    response whose body is read in full and the retry predicate is nil
    or answers false for that response at attempt 1, the call makes that
    one attempt, does not wait, and returns the body and status code of
    that response with a nil error, whatever the status code is. *)
Theorem first_response_not_retried_is_returned r ctx client req w rsp n :
  1 <= RetriesMax r ->
  client_Do client req (net w) = (DoOk rsp, n) ->
  failure (Body rsp) = None ->
  (IsRetryCondition r = None \/
   exists isRetryCondition,
     IsRetryCondition r = Some isRetryCondition /\ isRetryCondition rsp 1 = false) ->
  exists w' new,
    doRequestWithRetries r ctx client req w
      = (Val (content (Body rsp), StatusCode rsp, None), w') /\
    events w' = (new ++ events w)%list /\
    sends new = 1%nat /\
    sleeps new = 0%nat /\
    last_send new = Some (DoOk rsp).
Proof.
  intros HN Hdo Hf Hpred.
  assert (Hs : stops r rsp (0 + 1) = true).
  { unfold stops. change (0 + 1) with 1.
    destruct Hpred as [->|(p & -> & Hp)]; [reflexivity|].
    rewrite Hp. reflexivity. }
  destruct (Z.to_nat (RetriesMax r)) as [|fuel] eqn:Hfuel; [lia|].
  eexists _, (returning_events client req (uuid_New (uuids w)) rsp).
  split.
  - apply (doRequestWithRetries_after_loop _ _ _ _ _
             (ReturnInside (content (Body rsp)) (StatusCode rsp) None)).
    rewrite Hfuel. apply retry_loop_return; [lia|eassumption|assumption|assumption].
  - repeat split.
Qed.

(** C10.  Every run of the loop of [doRequestWithRetries] ends in one of
    two ways.  When its condition turns false, as many waits as attempts
    were made, [RetriesMax] of each, and if there was any attempt the
    last effect before the final [return] is a wait.  When the [return]
    inside the loop is taken, there is one wait fewer than attempts and
    nothing follows the log line of the response returned: no wait comes
    after the send of that attempt.  The call makes no effect of its own
    after the loop. *)
Theorem waits_of_a_call r ctx client req w :
  exists exit w' new,
    retry_loop (Z.to_nat (RetriesMax r)) r ctx client req 0 None [] None w = (Val exit, w') /\
    doRequestWithRetries r ctx client req w = (after_loop exit, w') /\
    events w' = (new ++ events w)%list /\
    match exit with
    | ConditionFalse _ _ _ =>
        sends new = Z.to_nat (RetriesMax r) /\
        sleeps new = Z.to_nat (RetriesMax r) /\
        (1 <= RetriesMax r -> exists rest, new = EvSleep (RetriesWait r) :: rest)
    | ReturnInside _ _ _ =>
        S (sleeps new) = sends new /\
        (sends new <= Z.to_nat (RetriesMax r))%nat /\
        exists rsp id rest,
          new = (returning_events client req id rsp ++ rest)%list /\
          stops r rsp (Z.of_nat (sends new)) = true
    end.
Proof.
  destruct (doRequestWithRetries_spec r ctx client req w)
    as (exit & w' & new & Hloop & Hrun & Hev & _ & _ & Hspec).
  exists exit, w', new.
  do 3 (split; [assumption|]).
  unfold exit_spec in Hspec. rewrite Z.sub_0_r in Hspec.
  destruct exit as [b s e|resp' b e].
  - destruct Hspec as (rsp & id & rest & _ & _ & Hs & Hnew & Hb & Hsl & _).
    split; [assumption|]. split; [lia|]. eauto.
  - destruct Hspec as (Hse & Hsl & Hlast).
    split; [assumption|]. split; [assumption|].
    intros HN. destruct (last_send new).
    + destruct Hlast as (_ & _ & _ & Hrest). assumption.
    + destruct Hlast as (Hk & _). lia.
Qed.

(** The loop against a server that recovers after [k] answers. *)
Lemma retry_loop_recovers r client req resp200 k n :
  recovers_after client req resp200 k n ->
  IsRetryCondition r = Some isNotOK ->
  forall fuel ctx retryCount resp respBody err w,
    net w = n ->
    retryCount + Z.of_nat k < RetriesMax r ->
    (k < fuel)%nat ->
    exists w' new,
      retry_loop fuel r ctx client req retryCount resp respBody err w
        = (Val (ReturnInside (default [] (ReqBody req)) StatusOK None), w') /\
      events w' = (new ++ events w)%list /\
      sends new = S k /\
      sleeps new = k /\
      last_send new = Some (DoOk resp200).
Proof.
  intros Hrec Hp.
  induction Hrec as [n n' Hdo Hst Hrd|k n n' rsp Hdo Hst Hf Hrec IH];
    intros fuel ctx c resp respBody err w Hn Hlt Hfuel;
    (destruct fuel as [|fuel]; [lia|]); subst n.
  - unfold io_ReadAll in Hrd. injection Hrd as Hc Hf.
    eexists _, (returning_events client req (uuid_New (uuids w)) resp200).
    split.
    + rewrite (retry_loop_return _ _ _ _ _ _ _ _ _ _ resp200 n'); try assumption.
      * rewrite Hc, Hst. reflexivity.
      * lia.
      * unfold stops. rewrite Hp. unfold isNotOK. rewrite Hst. reflexivity.
    + repeat split.
  - assert (Hc : continues r (c + 1) (DoOk rsp) = true).
    { unfold continues, stops. rewrite Hf, Hp, negb_involutive.
      unfold isNotOK. apply negb_true_iff, Z.eqb_neq. assumption. }
    assert (Hlt' : c < RetriesMax r) by lia.
    rewrite (retry_loop_continue _ _ _ _ _ _ _ _ _ _ _ _ Hlt' Hdo Hc).
    cbv zeta. unfold locals_after.
    set (id := uuid_New (uuids w)).
    set (it := iteration_events r client req id (c + 1) (DoOk rsp)).
    destruct (IH fuel (context_WithValue ctx "RequestId" id) (c + 1)
                (Some rsp) (content (Body rsp)) (failure (Body rsp))
                (world_after w n' it))
      as (w' & new & Hrun & Hev & Hse & Hsl & Hla); [reflexivity|lia|lia|].
    exists w', (new ++ it)%list.
    split; [assumption|].
    split; [rewrite Hev, <- app_assoc; reflexivity|].
    unfold sends, sleeps in *. rewrite !count_app.
    fold (sends it) (sleeps it). unfold it at 1 2.
    rewrite sends_iteration, sleeps_iteration, last_send_app, Hla.
    repeat split; lia.
Qed.

(** What a request method does with a client already at hand and a URL
    that parses: here for [HttpPost]. *)
Lemma HttpPost_sends r ctx object w u u' :
  URL r = Some u ->
  url_Parse (URL_String u) = inl u' ->
  exists client w1,
    GetSingletonHttpClient w = (Val client, w1) /\
    net w1 = net w /\ events w1 = events w /\
    HttpPost r ctx object w =
    doRequestWithRetries r ctx client
      (mkRequest MethodPost u' (Header r) (Some object)) w1.
Proof.
  intros Hu Hparse.
  unfold HttpPost, bind, GetSingletonHttpClient.
  destruct (httpClient w) as [c|] eqn:Hc.
  - exists c, w. rewrite Hu. simpl.
    unfold http_NewRequest. rewrite Hparse. auto.
  - eexists _, _. split; [reflexivity|]. rewrite Hu. simpl.
    unfold http_NewRequest. rewrite Hparse. auto.
Qed.

(** C5.  With the retry condition "status is not 200", a URL that
    parses, and a server that answers something other than 200 to the
    first [k] sends and then 200 with the body of the request, where
    [k] is less than [RetriesMax]: [HttpPost] makes exactly [k + 1]
    attempts and returns the bytes it was given with status 200 and a
    nil error. *)
Theorem HttpPost_retries_until_200 r ctx object w u u' resp200 (k : nat) :
  URL r = Some u ->
  url_Parse (URL_String u) = inl u' ->
  IsRetryCondition r = Some isNotOK ->
  Z.of_nat k < RetriesMax r ->
  (forall client,
     recovers_after client (mkRequest MethodPost u' (Header r) (Some object))
       resp200 k (net w)) ->
  exists w' new,
    HttpPost r ctx object w = (Val (object, StatusOK, None), w') /\
    events w' = (new ++ events w)%list /\
    sends new = S k /\
    sleeps new = k /\
    last_send new = Some (DoOk resp200).
Proof.
  intros Hu Hparse Hp Hk Hrec.
  destruct (HttpPost_sends r ctx object w u u' Hu Hparse)
    as (client & w1 & _ & Hnet & Hev & ->).
  destruct (retry_loop_recovers r client _ resp200 k (net w) (Hrec client) Hp
              (Z.to_nat (RetriesMax r)) ctx 0 None [] None w1)
    as (w' & new & Hrun & Hev' & Hrest); [assumption|lia|lia|].
  exists w', new.
  split.
  - apply (doRequestWithRetries_after_loop _ _ _ _ _ _ _ Hrun).
  - rewrite Hev', Hev. auto.
Qed.

(** *** Construction *)

Lemma Header_Get_None (h : http_Header) key :
  h !! key = None -> Header_Get h key = "".
Proof. intros H. unfold Header_Get. rewrite H. reflexivity. Qed.

Lemma Header_Get_Add_ne (h : http_Header) key key' v :
  key <> key' -> Header_Get (Header_Add h key v) key' = Header_Get h key'.
Proof.
  intros Hne. unfold Header_Get, Header_Add.
  rewrite lookup_insert_ne by assumption. reflexivity.
Qed.

Lemma Header_Get_Set_ne (h : http_Header) key key' v :
  key <> key' -> Header_Get (Header_Set h key v) key' = Header_Get h key'.
Proof.
  intros Hne. unfold Header_Get, Header_Set.
  rewrite lookup_insert_ne by assumption. reflexivity.
Qed.

Lemma Header_Add_three (h : http_Header) key a b c :
  Header_Add (Header_Add (Header_Add h key a) key b) key c
  = <[key := (default [] (h !! key) ++ [a; b; c])%list]> h.
Proof.
  unfold Header_Add.
  rewrite !lookup_insert_eq. simpl.
  rewrite !insert_insert_eq, <- !app_assoc. reflexivity.
Qed.

(** What [NewHttpRequest] does to the three headers.  It takes a header
    for absent when [Header.Get] answers the empty string for it: the
    key is missing, has no values, or has an empty first value.  In
    that case [Accept] gets the three default values appended, in order,
    to the values it had (so a missing [Accept] becomes exactly the
    three), [Content-Type] becomes the single default value and
    [Authorization] becomes ["Bearer "] followed by the token.  A header
    for which [Header.Get] answers a non-empty string, and every other
    key, keeps the caller's values. *)
Lemma NewHttpRequest_default_headers (o : HttpRequestOptions) :
  let h0 : http_Header := default ∅ (o_Header o) in
  exists h : http_Header,
    Header (NewHttpRequest o) = Some h /\
    h !! "Accept" =
      (if String.eqb (Header_Get h0 "Accept") ""
       then Some (default [] (h0 !! "Accept") ++ default_Accept)%list
       else h0 !! "Accept") /\
    h !! "Content-Type" =
      (if String.eqb (Header_Get h0 "Content-Type") ""
       then Some [default_Content_Type]
       else h0 !! "Content-Type") /\
    h !! "Authorization" =
      (if String.eqb (Header_Get h0 "Authorization") ""
       then Some ["Bearer " +:+ o_Token o]
       else h0 !! "Authorization") /\
    (h0 !! "Accept" = None -> h !! "Accept" = Some default_Accept) /\
    (h0 !! "Content-Type" = None -> h !! "Content-Type" = Some [default_Content_Type]) /\
    (h0 !! "Authorization" = None ->
       h !! "Authorization" = Some ["Bearer " +:+ o_Token o]) /\
    (forall key,
       key <> "Accept" -> key <> "Content-Type" -> key <> "Authorization" ->
       h !! key = h0 !! key).
Proof.
  intros h0.
  assert (Hh0 : match o_Header o with Some h => h | None => ∅ end = h0)
    by (unfold h0; destruct (o_Header o); reflexivity).
  eexists. split.
  { unfold NewHttpRequest. simpl. rewrite Hh0. reflexivity. }
  rewrite Header_Add_three.
  set (h1 := if String.eqb (Header_Get h0 "Accept") ""
             then <[ "Accept" := (default [] (h0 !! "Accept") ++ default_Accept)%list ]> h0
             else h0).
  assert (G1 : forall key, key <> "Accept" -> Header_Get h1 key = Header_Get h0 key).
  { intros key Hk. unfold h1. destruct (String.eqb _ _); [|reflexivity].
    unfold Header_Get. rewrite lookup_insert_ne by congruence. reflexivity. }
  assert (L1 : forall key, key <> "Accept" -> h1 !! key = h0 !! key).
  { intros key Hk. unfold h1. destruct (String.eqb _ _); [|reflexivity].
    rewrite lookup_insert_ne by congruence. reflexivity. }
  change (<[ "Accept" := (default [] (h0 !! "Accept")
                          ++ ["application/vnd.api+json"; "application/json"; "*/*"])%list ]> h0)
    with (<[ "Accept" := (default [] (h0 !! "Accept") ++ default_Accept)%list ]> h0).
  fold h1.
  rewrite (G1 "Content-Type") by discriminate.
  set (h2 := if String.eqb (Header_Get h0 "Content-Type") ""
             then Header_Set h1 "Content-Type" "application/vnd.api+json"
             else h1).
  assert (G2 : Header_Get h2 "Authorization" = Header_Get h0 "Authorization").
  { unfold h2. destruct (String.eqb (Header_Get h0 "Content-Type") "").
    - rewrite Header_Get_Set_ne by discriminate. apply G1. discriminate.
    - apply G1. discriminate. }
  assert (L2 : forall key, key <> "Content-Type" -> h2 !! key = h1 !! key).
  { intros key Hk. unfold h2, Header_Set.
    destruct (String.eqb (Header_Get h0 "Content-Type") ""); [|reflexivity].
    rewrite lookup_insert_ne by congruence. reflexivity. }
  rewrite G2.
  set (h3 := if String.eqb (Header_Get h0 "Authorization") ""
             then Header_Set h2 "Authorization" ("Bearer " +:+ o_Token o)
             else h2).
  assert (L3 : forall key, key <> "Authorization" -> h3 !! key = h2 !! key).
  { intros key Hk. unfold h3, Header_Set.
    destruct (String.eqb (Header_Get h0 "Authorization") ""); [|reflexivity].
    rewrite lookup_insert_ne by congruence. reflexivity. }
  assert (A : h3 !! "Accept" =
              (if String.eqb (Header_Get h0 "Accept") ""
               then Some (default [] (h0 !! "Accept") ++ default_Accept)%list
               else h0 !! "Accept")).
  { rewrite L3, L2 by discriminate. unfold h1.
    destruct (String.eqb (Header_Get h0 "Accept") ""); [|reflexivity].
    apply lookup_insert_eq. }
  assert (C : h3 !! "Content-Type" =
              (if String.eqb (Header_Get h0 "Content-Type") ""
               then Some [default_Content_Type]
               else h0 !! "Content-Type")).
  { rewrite L3 by discriminate. unfold h2, Header_Set.
    destruct (String.eqb (Header_Get h0 "Content-Type") "").
    - apply lookup_insert_eq.
    - apply L1. discriminate. }
  assert (B : h3 !! "Authorization" =
              (if String.eqb (Header_Get h0 "Authorization") ""
               then Some ["Bearer " +:+ o_Token o]
               else h0 !! "Authorization")).
  { unfold h3, Header_Set.
    destruct (String.eqb (Header_Get h0 "Authorization") "").
    - apply lookup_insert_eq.
    - rewrite L2, L1 by discriminate. reflexivity. }
  split; [exact A|]. split; [exact C|]. split; [exact B|].
  split; [|split; [|split]].
  - intros Hn. rewrite A, (Header_Get_None _ _ Hn), Hn. reflexivity.
  - intros Hn. rewrite C, (Header_Get_None _ _ Hn). reflexivity.
  - intros Hn. rewrite B, (Header_Get_None _ _ Hn). reflexivity.
  - intros key Ha Hc Hb. rewrite L3, L2, L1 by assumption. reflexivity.
Qed.

(** C7, as the code has it.  For every construction input, a zero
    (unset) [RetriesMax] becomes 10 and any other count, a negative one
    included, is kept as given; a zero (unset) [RetriesWait] becomes one
    second and any other wait is kept.  So the configuration built
    allows at least one attempt exactly when the [RetriesMax] given is
    not negative. *)
Theorem NewHttpRequest_retry_defaults (o : HttpRequestOptions) :
  RetriesMax (NewHttpRequest o)
    = (if o_RetriesMax o =? 0 then 10 else o_RetriesMax o) /\
  RetriesWait (NewHttpRequest o)
    = (if o_RetriesWait o =? 0 then time_Second else o_RetriesWait o) /\
  (1 <= RetriesMax (NewHttpRequest o) <-> 0 <= o_RetriesMax o).
Proof.
  unfold NewHttpRequest. simpl.
  split; [reflexivity|]. split; [reflexivity|].
  destruct (o_RetriesMax o =? 0) eqn:Hz.
  - apply Z.eqb_eq in Hz. lia.
  - apply Z.eqb_neq in Hz. lia.
Qed.

(** *** The request methods *)

Lemma GetSingletonHttpClient_spec w :
  exists client w1,
    GetSingletonHttpClient w = (Val client, w1) /\
    httpClient w1 = Some client /\
    net w1 = net w /\ events w1 = events w /\
    (forall c0, httpClient w = Some c0 -> client = c0 /\ w1 = w).
Proof.
  unfold GetSingletonHttpClient.
  destruct (httpClient w) as [c|] eqn:Hc.
  - exists c, w. repeat split; try assumption; congruence.
  - eexists _, _. split; [reflexivity|].
    repeat split; simpl; discriminate.
Qed.

(** C8.  A URL that both [url.Parse] and [url.ParseRequestURI] refuse is
    accepted by [NewHttpRequest], which stores it as it is; each request
    method then returns the parser's error with an empty body and status
    0, and neither sends nor waits. *)
Theorem malformed_URL_is_refused_without_sending
    (o : HttpRequestOptions) ctx object w u e e' :
  o_URL o = Some u ->
  url_Parse (URL_String u) = inr e ->
  url_ParseRequestURI (URL_String u) = inr e' ->
  URL (NewHttpRequest o) = Some u /\
  refused_without_sending (HttpGet (NewHttpRequest o) ctx w) e w /\
  refused_without_sending (HttpPost (NewHttpRequest o) ctx object w) e w /\
  refused_without_sending (HttpPatch (NewHttpRequest o) ctx object w) e w /\
  refused_without_sending (HttpPut (NewHttpRequest o) ctx object w) e w /\
  refused_without_sending (HttpDelete (NewHttpRequest o) ctx w) e' w.
Proof.
  intros Hu Hparse Hreq.
  assert (HU : URL (NewHttpRequest o) = Some u) by exact Hu.
  split; [exact HU|].
  destruct (GetSingletonHttpClient_spec w)
    as (client & w1 & Hget & _ & Hnet & Hev & _).
  unfold refused_without_sending, HttpGet, HttpPost, HttpPatch, HttpPut,
    HttpDelete, bind, http_NewRequest.
  rewrite Hget, HU. simpl. rewrite Hparse, Hreq. simpl.
  repeat split; assumption.
Qed.

Lemma doRequestWithRetries_httpClient r ctx client req w :
  httpClient (snd (doRequestWithRetries r ctx client req w)) = httpClient w.
Proof.
  destruct (doRequestWithRetries_spec r ctx client req w)
    as (exit & w' & new & _ & Hrun & _ & Hcl & _).
  rewrite Hrun. exact Hcl.
Qed.

Ltac method_keeps_client Hc :=
  unfold bind, GetSingletonHttpClient, URL_deref_String, ret, panic;
  rewrite Hc;
  repeat match goal with
         | |- context [match URL ?r with _ => _ end] => destruct (URL r); simpl
         | |- context [match url_ParseRequestURI ?s with _ => _ end] =>
             destruct (url_ParseRequestURI s); simpl
         | |- context [match http_NewRequest ?m ?s ?b with _ => _ end] =>
             destruct (http_NewRequest m s b); simpl
         end;
  try assumption;
  rewrite doRequestWithRetries_httpClient; assumption.

Lemma HttpGet_httpClient r ctx w c :
  httpClient w = Some c -> httpClient (snd (HttpGet r ctx w)) = Some c.
Proof. intros Hc. unfold HttpGet. method_keeps_client Hc. Qed.

Lemma HttpPost_httpClient r ctx object w c :
  httpClient w = Some c -> httpClient (snd (HttpPost r ctx object w)) = Some c.
Proof. intros Hc. unfold HttpPost. method_keeps_client Hc. Qed.

Lemma HttpPatch_httpClient r ctx object w c :
  httpClient w = Some c -> httpClient (snd (HttpPatch r ctx object w)) = Some c.
Proof. intros Hc. unfold HttpPatch. method_keeps_client Hc. Qed.

Lemma HttpPut_httpClient r ctx object w c :
  httpClient w = Some c -> httpClient (snd (HttpPut r ctx object w)) = Some c.
Proof. intros Hc. unfold HttpPut. method_keeps_client Hc. Qed.

Lemma HttpDelete_httpClient r ctx w c :
  httpClient w = Some c -> httpClient (snd (HttpDelete r ctx w)) = Some c.
Proof. intros Hc. unfold HttpDelete. method_keeps_client Hc. Qed.

(** C9.  [GetSingletonHttpClient] always returns a client and leaves it
    in [httpClient]; it allocates one only when [httpClient] is nil, and
    otherwise returns the stored one and changes nothing.  Called again,
    at once or after any request method has run, it returns the same
    client. *)
Theorem GetSingletonHttpClient_same_instance w :
  exists client w1,
    GetSingletonHttpClient w = (Val client, w1) /\
    httpClient w1 = Some client /\
    (httpClient w = None -> client = allocated w /\ allocated w1 = S (allocated w)) /\
    (forall c0, httpClient w = Some c0 -> client = c0 /\ w1 = w) /\
    GetSingletonHttpClient w1 = (Val client, w1) /\
    (forall r ctx object w2,
       w2 = snd (HttpGet r ctx w1) \/
       w2 = snd (HttpPost r ctx object w1) \/
       w2 = snd (HttpPatch r ctx object w1) \/
       w2 = snd (HttpPut r ctx object w1) \/
       w2 = snd (HttpDelete r ctx w1) ->
       GetSingletonHttpClient w2 = (Val client, w2)).
Proof.
  destruct (GetSingletonHttpClient_spec w)
    as (client & w1 & Hget & Hcl & _ & _ & Hsame).
  exists client, w1.
  split; [assumption|]. split; [assumption|].
  split.
  { intros Hnil. unfold GetSingletonHttpClient in Hget. rewrite Hnil in Hget.
    injection Hget as <- <-. split; reflexivity. }
  split; [assumption|].
  assert (Hagain : forall w2, httpClient w2 = Some client ->
                              GetSingletonHttpClient w2 = (Val client, w2)).
  { intros w2 H2. unfold GetSingletonHttpClient. rewrite H2. reflexivity. }
  split; [by apply Hagain|].
  intros r ctx object w2 [->|[->|[->|[->| ->]]]]; apply Hagain.
  - by apply HttpGet_httpClient.
  - by apply HttpPost_httpClient.
  - by apply HttpPatch_httpClient.
  - by apply HttpPut_httpClient.
  - by apply HttpDelete_httpClient.
Qed.

End Proofs.

(** * The package at work *)

(** C1 (a defect of the code).  On a network that refuses every
    connection, [HttpGet] with the default configuration makes its ten
    attempts, waits after each, and then does not return the last error:
    it panics, evaluating [resp.StatusCode] on a nil [resp]. *)
Theorem every_send_refused_panics :
  let run := @HttpGet refusing (NewHttpRequest refused_options) [] refused_world in
  fst run = Panic NilDereference /\
  sends (events (snd run)) = 10%nat /\
  sleeps (events (snd run)) = 10%nat /\
  last_send (events (snd run))
    = Some (DoErr "dial tcp 127.0.0.1:9: connect: connection refused").
Proof. vm_compute. repeat split. Qed.

(** C2 (a defect of the code).  On that network none of the five request
    methods returns a (body, status, error) triple: each one panics. *)
Theorem request_methods_panic_when_refused :
  let r := @NewHttpRequest refusing refused_options in
  let w := refused_world in
  fst (HttpGet r [] w) = Panic NilDereference /\
  fst (HttpPost r [] requestBody w) = Panic NilDereference /\
  fst (HttpPatch r [] requestBody w) = Panic NilDereference /\
  fst (HttpPut r [] requestBody w) = Panic NilDereference /\
  fst (HttpDelete r [] w) = Panic NilDereference.
Proof. vm_compute. repeat split. Qed.

(** The same panic comes without any send when the number of retries is
    negative: the loop is not entered and [resp] is still nil. *)
Example negative_RetriesMax_panics :
  let run :=
    @HttpGet test_server (NewHttpRequest negative_options) []
      (@fresh_world test_server 0) in
  fst run = Panic NilDereference /\ sends (events (snd run)) = 0%nat.
Proof. vm_compute. repeat split. Qed.

(** [TestIntegration_HttpPost], run in the model. *)
Example TestIntegration_HttpPost :
  let run := @HttpPost test_server api [] requestBody test_world in
  fst run = Val (requestBody, StatusOK, None) /\
  sends (events (snd run)) = 6%nat.
Proof. vm_compute. repeat split. Qed.


Lemma first_response_not_retried_is_returned_witness :
  exists w' new,
    @doRequestWithRetries (constant_server 404 not_found_body)
      (NewHttpRequest plain_options) [] O get_missing not_found_world
      = (Val (not_found_body, 404, None), w') /\
    events w' = (new ++ events not_found_world)%list /\
    sends new = 1%nat /\
    sleeps new = 0%nat /\
    last_send new
      = Some (DoOk (mkResponse 404 (mkReadCloser not_found_body None))).
Proof.
  apply (@first_response_not_retried_is_returned
           (constant_server 404 not_found_body)
           (NewHttpRequest plain_options) [] O get_missing not_found_world
           (mkResponse 404 (mkReadCloser not_found_body None)) tt).
  - vm_compute. discriminate.
  - reflexivity.
  - reflexivity.
  - left. reflexivity.
Defined.

Lemma HttpPost_retries_until_200_witness :
  exists w' new,
    @HttpPost test_server api [] requestBody test_world
      = (Val (requestBody, StatusOK, None), w') /\
    events w' = (new ++ events test_world)%list /\
    sends new = 6%nat /\
    sleeps new = 5%nat /\
    last_send new
      = Some (DoOk (mkResponse StatusOK (mkReadCloser requestBody None))).
Proof.
  apply (@HttpPost_retries_until_200 test_server api [] requestBody test_world
           "http://127.0.0.1:38291" "http://127.0.0.1:38291"
           (mkResponse StatusOK (mkReadCloser requestBody None)) 5).
  - reflexivity.
  - reflexivity.
  - reflexivity.
  - vm_compute. reflexivity.
  - intros client.
    do 5 (eapply recovers_later;
          [vm_compute; reflexivity | vm_compute; discriminate | reflexivity |]).
    eapply recovers_now; reflexivity.
Defined.

(** C6 (a defect of the code).  The code's own comment says the defaults
    must not overwrite what the caller set, yet a caller who sets
    [Content-Type] to an empty value followed by [text/plain], and
    [Authorization] to an empty value, finds both replaced by the
    defaults. *)
Theorem caller_headers_starting_empty_are_replaced :
  emptied_headers !! "Content-Type" = Some [""; "text/plain"] /\
  emptied_headers !! "Authorization" = Some [""] /\
  default ∅ (Header (NewHttpRequest emptied_options)) !! "Content-Type"
    = Some ["application/vnd.api+json"] /\
  default ∅ (Header (NewHttpRequest emptied_options)) !! "Authorization"
    = Some ["Bearer secret"].
Proof. vm_compute. repeat split. Qed.

(** C7, as the claim has it, fails: a negative [RetriesMax] is kept. *)
Lemma negative_RetriesMax_is_kept :
  RetriesMax (NewHttpRequest negative_options) = -1 /\
  ~ 1 <= RetriesMax (NewHttpRequest negative_options).
Proof. split; [reflexivity | vm_compute; intros H; apply H; reflexivity]. Qed.

Lemma malformed_URL_is_refused_without_sending_witness :
  URL (NewHttpRequest blank_options) = Some "http://exa mple.com/" /\
  refused_without_sending
    (@HttpGet test_server (NewHttpRequest blank_options) [] test_world)
    "invalid character in host name" test_world /\
  refused_without_sending
    (@HttpPost test_server (NewHttpRequest blank_options) [] requestBody test_world)
    "invalid character in host name" test_world /\
  refused_without_sending
    (@HttpPatch test_server (NewHttpRequest blank_options) [] requestBody test_world)
    "invalid character in host name" test_world /\
  refused_without_sending
    (@HttpPut test_server (NewHttpRequest blank_options) [] requestBody test_world)
    "invalid character in host name" test_world /\
  refused_without_sending
    (@HttpDelete test_server (NewHttpRequest blank_options) [] test_world)
    "invalid URI for request" test_world.
Proof.
  apply (@malformed_URL_is_refused_without_sending test_server blank_options []
           requestBody test_world "http://exa mple.com/"
           "invalid character in host name" "invalid URI for request");
    reflexivity.
Defined.

(** * More on the loop *)

Section Loop.
Context `{P : Platform}.

Lemma event_of_call_weaken r client req lo hi lo' hi' ev :
  (lo' <= lo)%nat -> (hi <= hi')%nat ->
  event_of_call r client req lo hi ev -> event_of_call r client req lo' hi' ev.
Proof.
  intros Hlo Hhi.
  assert (Hd : forall id, drawn_between lo hi id -> drawn_between lo' hi' id).
  { intros id (j & Hj & ->). exists j. split; [lia|reflexivity]. }
  destruct ev; simpl; intuition auto.
Qed.

Lemma iteration_events_of_call r client req w retryCount out hi :
  0 <= retryCount < RetriesMax r ->
  (uuids w < hi)%nat ->
  Forall (event_of_call r client req (uuids w) hi)
    (iteration_events r client req (uuid_New (uuids w)) (retryCount + 1) out).
Proof.
  intros Hc Hhi.
  assert (Hd : drawn_between (uuids w) hi (Some (uuid_New (uuids w)))).
  { exists (uuids w). split; [lia|reflexivity]. }
  unfold iteration_events, httputil_DumpResponse.
  destruct out as [rsp|e|rsp e]; simpl.
  - destruct (failure (Body rsp));
      repeat constructor; simpl; auto; lia.
  - repeat constructor; simpl; auto; lia.
  - repeat constructor; simpl; auto; lia.
Qed.

(** The effects of a run of the loop, whatever way it ends. *)
Lemma retry_loop_trace fuel :
  forall r ctx client req retryCount resp respBody err w res w',
    0 <= retryCount ->
    retry_loop fuel r ctx client req retryCount resp respBody err w = (res, w') ->
    exists new,
      events w' = (new ++ events w)%list /\
      uuids w' = (uuids w + sends new)%nat /\
      Forall (event_of_call r client req (uuids w) (uuids w')) new.
Proof.
  induction fuel as [|fuel IH];
    intros r ctx client req c resp respBody err w res w' Hc Hrun.
  - exists []. simpl in Hrun.
    destruct (c <? RetriesMax r); injection Hrun as <- <-;
      (split; [reflexivity|]; split; [unfold sends; simpl; lia | constructor]).
  - destruct (Z_lt_le_dec c (RetriesMax r)) as [Hlt|Hge].
    + destruct (client_Do client req (net w)) as [out n] eqn:Hdo.
      destruct (continues r (c + 1) out) eqn:Hcont.
      * rewrite (retry_loop_continue _ _ _ _ _ _ _ _ _ _ _ _ Hlt Hdo Hcont) in Hrun.
        cbv zeta in Hrun.
        destruct (locals_after out) as [[resp1 body1] err1].
        set (id := uuid_New (uuids w)) in *.
        set (it := iteration_events r client req id (c + 1) out) in *.
        apply IH in Hrun; [|lia].
        destruct Hrun as (new1 & Hev & Huu & Hall).
        change (events (world_after w n it)) with (it ++ events w)%list in Hev.
        change (uuids (world_after w n it)) with (S (uuids w)) in Huu, Hall.
        assert (Hse : sends it = 1%nat) by apply sends_iteration.
        exists (new1 ++ it)%list.
        split; [rewrite Hev, <- app_assoc; reflexivity|].
        split.
        { rewrite Huu. unfold sends in *. rewrite count_app. lia. }
        apply Forall_app. split.
        -- eapply Forall_impl; [exact Hall|].
           intros ev. apply event_of_call_weaken; lia.
        -- apply iteration_events_of_call; lia.
      * destruct (continues_false _ _ _ Hcont) as (rsp & -> & Hf & Hs).
        rewrite (retry_loop_return _ _ _ _ _ _ _ _ _ _ _ _ Hlt Hdo Hf Hs) in Hrun.
        injection Hrun as <- <-.
        exists (returning_events client req (uuid_New (uuids w)) rsp).
        split; [reflexivity|].
        split; [unfold sends; simpl; lia|].
        assert (Hd : drawn_between (uuids w) (S (uuids w)) (Some (uuid_New (uuids w)))).
        { exists (uuids w). split; [lia|reflexivity]. }
        repeat constructor; simpl; auto.
    + rewrite retry_loop_done in Hrun by assumption.
      injection Hrun as <- <-.
      exists [].
      split; [reflexivity|]. split; [unfold sends; simpl; lia | constructor].
Qed.

Lemma first_send_app (a b : list Event) :
  first_send (a ++ b) =
  match first_send b with
  | Some q => Some q
  | None => first_send a
  end.
Proof.
  induction a as [|ev a IH]; simpl.
  - destruct (first_send b); reflexivity.
  - rewrite IH. destruct (first_send b); reflexivity.
Qed.

Lemma first_send_iteration r client req id retryCount out :
  first_send (iteration_events r client req id retryCount out) = Some req.
Proof.
  unfold iteration_events, httputil_DumpResponse.
  destruct out as [rsp|e|rsp e]; simpl; try reflexivity.
  destruct (failure (Body rsp)); reflexivity.
Qed.

(** The first send of a run that is allowed an attempt is given the
    request as the caller built it. *)
Lemma retry_loop_first_send fuel r ctx client req retryCount resp respBody err w
    res w' new :
  0 <= retryCount < RetriesMax r ->
  retry_loop (S fuel) r ctx client req retryCount resp respBody err w = (res, w') ->
  events w' = (new ++ events w)%list ->
  first_send new = Some req.
Proof.
  intros [Hc Hlt] Hrun Hev.
  destruct (client_Do client req (net w)) as [out n] eqn:Hdo.
  destruct (continues r (retryCount + 1) out) eqn:Hcont.
  - rewrite (retry_loop_continue _ _ _ _ _ _ _ _ _ _ _ _ Hlt Hdo Hcont) in Hrun.
    cbv zeta in Hrun.
    destruct (locals_after out) as [[resp1 body1] err1].
    set (it := iteration_events r client req (uuid_New (uuids w))
                 (retryCount + 1) out) in *.
    apply retry_loop_trace in Hrun; [|lia].
    destruct Hrun as (new1 & Hev1 & _).
    change (events (world_after w n it)) with (it ++ events w)%list in Hev1.
    rewrite Hev1, app_assoc in Hev. apply app_inv_tail in Hev. subst new.
    rewrite first_send_app. unfold it. rewrite first_send_iteration. reflexivity.
  - destruct (continues_false _ _ _ Hcont) as (rsp & -> & Hf & Hs).
    rewrite (retry_loop_return _ _ _ _ _ _ _ _ _ _ _ _ Hlt Hdo Hf Hs) in Hrun.
    injection Hrun as <- <-.
    change (events (world_after w n (returning_events client req
                                       (uuid_New (uuids w)) rsp)))
      with (returning_events client req (uuid_New (uuids w)) rsp ++ events w)%list
      in Hev.
    apply app_inv_tail in Hev. subst new. reflexivity.
Qed.

Lemma last_send_returning client req id rsp rest :
  last_send (returning_events client req id rsp ++ rest) = Some (DoOk rsp).
Proof. reflexivity. Qed.

(** X1.  What a call of [doRequestWithRetries] hands back is read off
    the outcome of its last send and nothing else: the response and the
    error of that send, or a panic when that send brought no response or
    no send was made.  So the call panics exactly when it made no send
    or its last send failed without a response. *)
Theorem result_is_read_off_the_last_send r ctx client req w :
  exists w' new,
    doRequestWithRetries r ctx client req w
      = (result_of_last_send (last_send new), w') /\
    events w' = (new ++ events w)%list /\
    (fst (doRequestWithRetries r ctx client req w) = Panic NilDereference <->
     last_send new = None \/ exists e, last_send new = Some (DoErr e)).
Proof.
  destruct (doRequestWithRetries_spec r ctx client req w)
    as (exit & w' & new & _ & Hrun & Hev & _ & _ & Hspec).
  exists w', new.
  assert (Hres : after_loop exit = result_of_last_send (last_send new)).
  { unfold exit_spec in Hspec.
    destruct exit as [b s e|resp' b e].
    - destruct Hspec as (rsp & id & rest & _ & Hf & _ & -> & _ & _ & Hres).
      rewrite last_send_returning. injection Hres as -> -> ->.
      unfold result_of_last_send, locals_after. rewrite Hf. reflexivity.
    - destruct Hspec as (_ & _ & Hlast).
      destruct (last_send new) as [out|].
      + destruct Hlast as (_ & _ & Hloc & _).
        unfold result_of_last_send. rewrite <- Hloc.
        destruct resp'; reflexivity.
      + destruct Hlast as (_ & _ & Hloc). injection Hloc as -> -> ->.
        reflexivity. }
  rewrite Hrun, Hres. split; [reflexivity|]. split; [assumption|].
  simpl. unfold result_of_last_send.
  destruct (last_send new) as [[rsp|e|rsp e]|]; simpl; split;
    try discriminate; eauto.
  - intros [H|[e H]]; discriminate.
  - intros [H|[e' H]]; discriminate.
Qed.

(** The loop against a network on which the [k] next sends make it go
    on and the one after them makes it stop. *)
Lemma retry_loop_settles r client req rsp retryCount k n :
  settles_after r client req rsp retryCount k n ->
  forall fuel ctx resp respBody err w,
    net w = n ->
    retryCount + Z.of_nat k < RetriesMax r ->
    (k < fuel)%nat ->
    exists w' new,
      retry_loop fuel r ctx client req retryCount resp respBody err w
        = (Val (ReturnInside (content (Body rsp)) (StatusCode rsp) None), w') /\
      events w' = (new ++ events w)%list /\
      sends new = S k /\
      sleeps new = k /\
      last_send new = Some (DoOk rsp).
Proof.
  induction 1 as [c n n' Hdo Hf Hs|c k n n' out Hdo Hcont Hrec IH];
    intros fuel ctx resp respBody err w Hn Hlt Hfuel;
    (destruct fuel as [|fuel]; [lia|]); subst n.
  - eexists _, (returning_events client req (uuid_New (uuids w)) rsp).
    split; [apply (retry_loop_return _ _ _ _ _ _ _ _ _ _ rsp n'); [lia|assumption..]|].
    repeat split.
  - assert (Hlt' : c < RetriesMax r) by lia.
    rewrite (retry_loop_continue _ _ _ _ _ _ _ _ _ _ _ _ Hlt' Hdo Hcont).
    cbv zeta. destruct (locals_after out) as [[resp1 body1] err1].
    set (id := uuid_New (uuids w)).
    set (it := iteration_events r client req id (c + 1) out).
    destruct (IH fuel (context_WithValue ctx "RequestId" id) resp1 body1 err1
                (world_after w n' it))
      as (w' & new & Hrun & Hev & Hse & Hsl & Hla); [reflexivity|lia|lia|].
    exists w', (new ++ it)%list.
    split; [assumption|].
    split; [rewrite Hev, <- app_assoc; reflexivity|].
    unfold sends, sleeps in *. rewrite !count_app.
    fold (sends it) (sleeps it). unfold it at 1 2.
    rewrite sends_iteration, sleeps_iteration, last_send_app, Hla.
    repeat split; lia.
Qed.

(** X2.  Failed sends are retried and then forgotten.  If the first [k]
    sends each make the loop go on (a transport error, a body that could
    not be read, or a response the retry condition flags), [k] being
    less than [RetriesMax], and the next one brings a response that is
    read in full and not flagged, the call makes [k + 1] attempts, waits
    [k] times, and returns that response's body and status code with a
    nil error. *)
Theorem retries_until_a_response_is_accepted r ctx client req w rsp (k : nat) :
  settles_after r client req rsp 0 k (net w) ->
  Z.of_nat k < RetriesMax r ->
  exists w' new,
    doRequestWithRetries r ctx client req w
      = (Val (content (Body rsp), StatusCode rsp, None), w') /\
    events w' = (new ++ events w)%list /\
    sends new = S k /\
    sleeps new = k /\
    last_send new = Some (DoOk rsp).
Proof.
  intros Hset Hk.
  destruct (retry_loop_settles r client req rsp 0 k (net w) Hset
              (Z.to_nat (RetriesMax r)) ctx None [] None w)
    as (w' & new & Hrun & Hrest); [reflexivity|lia|lia|].
  exists w', new. split; [|assumption].
  apply (doRequestWithRetries_after_loop _ _ _ _ _ _ _ Hrun).
Qed.

(** X3.  An error comes back only when the attempts are used up: if the
    call returns a non-nil error, then [RetriesMax] is at least 1, the
    call made [RetriesMax] attempts and waited after each, and the error,
    body and status code are those its last send left behind. *)
Theorem an_error_is_returned_only_after_all_attempts
    r ctx client req w respBody statusCode e w' :
  doRequestWithRetries r ctx client req w = (Val (respBody, statusCode, Some e), w') ->
  1 <= RetriesMax r /\
  exists new out rsp,
    events w' = (new ++ events w)%list /\
    sends new = Z.to_nat (RetriesMax r) /\
    sleeps new = Z.to_nat (RetriesMax r) /\
    last_send new = Some out /\
    locals_after out = (Some rsp, respBody, Some e) /\
    statusCode = StatusCode rsp.
Proof.
  intros Hret.
  destruct (doRequestWithRetries_spec r ctx client req w)
    as (exit & w1 & new & _ & Hrun & Hev & _ & _ & Hspec).
  rewrite Hrun in Hret. injection Hret as Hres <-.
  unfold exit_spec in Hspec. rewrite Z.sub_0_r in Hspec.
  destruct exit as [b s e0|resp' b e0]; simpl in Hres.
  - destruct Hspec as (rsp & _ & _ & _ & _ & _ & _ & _ & _ & Heq).
    congruence.
  - destruct Hspec as (Hse & Hsl & Hlast).
    destruct resp' as [rsp|]; [|discriminate].
    injection Hres as Hb Hs He. subst b statusCode e0.
    destruct (last_send new) as [out|] eqn:Hls.
    + destruct Hlast as (_ & _ & Hloc & _).
      split.
      * destruct (Z_lt_le_dec 0 (RetriesMax r)); [lia|].
        assert (Z.to_nat (RetriesMax r) = O) as H0 by lia.
        rewrite H0 in Hse. destruct new as [|ev new]; [discriminate|].
        exfalso. clear - Hse Hls.
        induction (ev :: new) as [|a l IH]; [discriminate|].
        unfold sends in Hse. simpl in Hse, Hls.
        destruct a; simpl in Hse; try discriminate;
          apply IH; assumption.
      * exists new, out, rsp. repeat split; auto.
    + destruct Hlast as (_ & _ & Hloc). discriminate.
Qed.

(** The context and the identifiers drawn do not steer the loop. *)
Lemma retry_loop_ignores_context fuel :
  forall r ctx ctx' client req retryCount resp respBody err w w',
    net w = net w' ->
    fst (retry_loop fuel r ctx client req retryCount resp respBody err w)
      = fst (retry_loop fuel r ctx' client req retryCount resp respBody err w') /\
    net (snd (retry_loop fuel r ctx client req retryCount resp respBody err w))
      = net (snd (retry_loop fuel r ctx' client req retryCount resp respBody err w')).
Proof.
  induction fuel as [|fuel IH];
    intros r ctx ctx' client req c resp respBody err w w' Hnet.
  - simpl. destruct (c <? RetriesMax r); simpl; auto.
  - destruct (Z_lt_le_dec c (RetriesMax r)) as [Hlt|Hge].
    + destruct (client_Do client req (net w)) as [out n] eqn:Hdo.
      assert (Hdo' : client_Do client req (net w') = (out, n))
        by (rewrite <- Hnet; assumption).
      destruct (continues r (c + 1) out) eqn:Hcont.
      * rewrite (retry_loop_continue _ _ _ _ _ _ _ _ _ _ _ _ Hlt Hdo Hcont),
          (retry_loop_continue _ _ _ _ _ _ _ _ _ _ _ _ Hlt Hdo' Hcont).
        cbv zeta. destruct (locals_after out) as [[resp1 body1] err1].
        apply IH. reflexivity.
      * destruct (continues_false _ _ _ Hcont) as (rsp & -> & Hf & Hs).
        rewrite (retry_loop_return _ _ _ _ _ _ _ _ _ _ _ _ Hlt Hdo Hf Hs),
          (retry_loop_return _ _ _ _ _ _ _ _ _ _ _ _ Hlt Hdo' Hf Hs).
        split; reflexivity.
    + rewrite !retry_loop_done by assumption. simpl. auto.
Qed.

(** X4.  The context is only a tag on the log lines.  Two calls with the
    same configuration, client and request against the same state of
    the network hand back the same result and leave the network in the
    same state, whatever contexts they are given, whatever identifiers
    they draw and whatever was logged before. *)
Theorem the_context_does_not_steer_a_call r ctx ctx' client req w w' :
  net w = net w' ->
  fst (doRequestWithRetries r ctx client req w)
    = fst (doRequestWithRetries r ctx' client req w') /\
  net (snd (doRequestWithRetries r ctx client req w))
    = net (snd (doRequestWithRetries r ctx' client req w')).
Proof.
  intros Hnet.
  destruct (retry_loop_ignores_context (Z.to_nat (RetriesMax r)) r ctx ctx'
              client req 0 None [] None w w' Hnet) as [Hres Hn].
  unfold doRequestWithRetries, bind.
  destruct (retry_loop _ r ctx _ _ _ _ _ _ w) as [res1 w1].
  destruct (retry_loop _ r ctx' _ _ _ _ _ _ w') as [res2 w2].
  simpl in Hres, Hn. subst res2.
  destruct res1 as [[b s e|[rsp|] b e]|k|]; simpl; auto.
Qed.

Lemma doRequestWithRetries_trace r ctx client req w :
  exists new,
    events (snd (doRequestWithRetries r ctx client req w)) = (new ++ events w)%list /\
    uuids (snd (doRequestWithRetries r ctx client req w)) = (uuids w + sends new)%nat /\
    Forall (event_of_call r client req (uuids w)
              (uuids (snd (doRequestWithRetries r ctx client req w)))) new /\
    (1 <= RetriesMax r -> first_send new = Some req).
Proof.
  unfold doRequestWithRetries, bind.
  destruct (retry_loop (Z.to_nat (RetriesMax r)) r ctx client req 0 None [] None w)
    as [res w1] eqn:Hrun.
  destruct (retry_loop_trace _ _ _ _ _ _ _ _ _ _ _ _ (Z.le_refl 0) Hrun)
    as (new & Hev & Huu & Hall).
  exists new.
  assert (Hfirst : 1 <= RetriesMax r -> first_send new = Some req).
  { intros HN.
    destruct (Z.to_nat (RetriesMax r)) as [|fuel] eqn:Hfuel; [lia|].
    assert (Hc : 0 <= 0 < RetriesMax r) by lia.
    exact (retry_loop_first_send _ _ _ _ _ _ _ _ _ _ _ _ _ Hc Hrun Hev). }
  destruct res as [[b s e|[rsp|] b e]|k|]; simpl; auto.
Qed.


End Loop.

(** * More on the request methods and on construction *)

Section Methods.
Context `{P : Platform}.

Lemma GetSingletonHttpClient_run w :
  fst (GetSingletonHttpClient w) = Val (client_of w) /\
  httpClient (snd (GetSingletonHttpClient w)) = Some (client_of w) /\
  net (snd (GetSingletonHttpClient w)) = net w /\
  events (snd (GetSingletonHttpClient w)) = events w /\
  uuids (snd (GetSingletonHttpClient w)) = uuids w /\
  allocated (snd (GetSingletonHttpClient w))
    = match httpClient w with
      | Some _ => allocated w
      | None => S (allocated w)
      end.
Proof.
  unfold GetSingletonHttpClient, client_of.
  destruct (httpClient w) eqn:Hc; simpl; repeat split; auto.
Qed.

(** A request method, once the URL has parsed, is the loop run with the
    shared client on the request it built. *)
Ltac method_runs_the_loop Hu Hparse :=
  unfold bind, GetSingletonHttpClient, client_of, URL_deref_String, ret,
    http_NewRequest;
  rewrite Hu;
  match goal with
  | |- context [httpClient ?w] => destruct (httpClient w)
  end; simpl; repeat (rewrite ?Hparse; simpl); reflexivity.

Lemma HttpGet_runs_the_loop r ctx w u u' :
  URL r = Some u -> url_Parse (URL_String u) = inl u' ->
  HttpGet r ctx w =
  doRequestWithRetries r ctx (client_of w)
    (mkRequest MethodGet u' (Header r) None) (snd (GetSingletonHttpClient w)).
Proof. intros Hu Hparse. unfold HttpGet. method_runs_the_loop Hu Hparse. Qed.

Lemma HttpPost_runs_the_loop r ctx object w u u' :
  URL r = Some u -> url_Parse (URL_String u) = inl u' ->
  HttpPost r ctx object w =
  doRequestWithRetries r ctx (client_of w)
    (mkRequest MethodPost u' (Header r) (Some object)) (snd (GetSingletonHttpClient w)).
Proof. intros Hu Hparse. unfold HttpPost. method_runs_the_loop Hu Hparse. Qed.

Lemma HttpPatch_runs_the_loop r ctx object w u u' :
  URL r = Some u -> url_Parse (URL_String u) = inl u' ->
  HttpPatch r ctx object w =
  doRequestWithRetries r ctx (client_of w)
    (mkRequest MethodPatch u' (Header r) (Some object)) (snd (GetSingletonHttpClient w)).
Proof. intros Hu Hparse. unfold HttpPatch. method_runs_the_loop Hu Hparse. Qed.

Lemma HttpPut_runs_the_loop r ctx object w u u' :
  URL r = Some u -> url_Parse (URL_String u) = inl u' ->
  HttpPut r ctx object w =
  doRequestWithRetries r ctx (client_of w)
    (mkRequest MethodPut u' (Header r) (Some object)) (snd (GetSingletonHttpClient w)).
Proof. intros Hu Hparse. unfold HttpPut. method_runs_the_loop Hu Hparse. Qed.

Lemma HttpDelete_runs_the_loop r ctx w u u1 u2 :
  URL r = Some u ->
  url_ParseRequestURI (URL_String u) = inl u1 ->
  url_Parse (URL_String u1) = inl u2 ->
  HttpDelete r ctx w =
  doRequestWithRetries r ctx (client_of w)
    (mkRequest MethodDelete u2 (Header r) None) (snd (GetSingletonHttpClient w)).
Proof.
  intros Hu Hreq Hparse. unfold HttpDelete.
  unfold bind, GetSingletonHttpClient, client_of, URL_deref_String, ret,
    http_NewRequest.
  rewrite Hu. destruct (httpClient w); simpl; rewrite Hreq, Hparse; reflexivity.
Qed.

Lemma loop_call_made_with r ctx req w :
  call_made_with r req w
    (doRequestWithRetries r ctx (client_of w) req (snd (GetSingletonHttpClient w))).
Proof.
  destruct (GetSingletonHttpClient_run w) as (_ & Hcl & _ & Hev & Huu & _).
  destruct (doRequestWithRetries_trace r ctx (client_of w) req
              (snd (GetSingletonHttpClient w))) as (new & Hev' & _ & Hall & Hfirst).
  exists new. rewrite doRequestWithRetries_httpClient.
  rewrite Hev, Huu in *. auto.
Qed.

(** X6.  What the request methods send.  With a URL that parses, every
    send of a call goes through the shared client, which [httpClient]
    holds afterwards, and carries the method's verb, the parsed URL and
    the configured header.  When an attempt is allowed, the first send
    is given the request as the method built it: for [HttpPost],
    [HttpPatch] and [HttpPut] a body of exactly the bytes the caller
    gave, for [HttpGet] and [HttpDelete] no body.  [HttpDelete] sends to
    the URL as [url.ParseRequestURI] read it and wrote it back.  What
    later sends still find in the body is left to the transport. *)
Theorem request_methods_send_what_they_built r ctx object w u u' :
  URL r = Some u ->
  url_Parse (URL_String u) = inl u' ->
  call_made_with r (mkRequest MethodGet u' (Header r) None) w
    (HttpGet r ctx w) /\
  call_made_with r (mkRequest MethodPost u' (Header r) (Some object)) w
    (HttpPost r ctx object w) /\
  call_made_with r (mkRequest MethodPatch u' (Header r) (Some object)) w
    (HttpPatch r ctx object w) /\
  call_made_with r (mkRequest MethodPut u' (Header r) (Some object)) w
    (HttpPut r ctx object w) /\
  (forall u1 u2,
     url_ParseRequestURI (URL_String u) = inl u1 ->
     url_Parse (URL_String u1) = inl u2 ->
     call_made_with r (mkRequest MethodDelete u2 (Header r) None) w
       (HttpDelete r ctx w)).
Proof.
  intros Hu Hparse.
  rewrite (HttpGet_runs_the_loop _ _ _ _ _ Hu Hparse),
    (HttpPost_runs_the_loop _ _ _ _ _ _ Hu Hparse),
    (HttpPatch_runs_the_loop _ _ _ _ _ _ Hu Hparse),
    (HttpPut_runs_the_loop _ _ _ _ _ _ Hu Hparse).
  do 4 (split; [apply loop_call_made_with|]).
  intros u1 u2 Hreq Hparse1.
  rewrite (HttpDelete_runs_the_loop _ _ _ _ _ _ Hu Hreq Hparse1).
  apply loop_call_made_with.
Qed.

(** X7.  A configuration whose URL is nil makes every request method
    panic on [r.URL.String()]: nothing is sent and nothing is waited
    for. *)
Theorem nil_URL_panics_before_any_send r ctx object w :
  URL r = None ->
  panicked_without_sending (HttpGet r ctx w) w /\
  panicked_without_sending (HttpPost r ctx object w) w /\
  panicked_without_sending (HttpPatch r ctx object w) w /\
  panicked_without_sending (HttpPut r ctx object w) w /\
  panicked_without_sending (HttpDelete r ctx w) w.
Proof.
  intros Hu.
  destruct (GetSingletonHttpClient_run w) as (Hc & _ & Hnet & Hev & _).
  unfold panicked_without_sending, HttpGet, HttpPost, HttpPatch, HttpPut,
    HttpDelete, bind, URL_deref_String, panic.
  rewrite Hu.
  destruct (GetSingletonHttpClient w) as [res w1]. simpl in Hc, Hnet, Hev.
  subst res. simpl. auto 10.
Qed.

Lemma doRequestWithRetries_sends r ctx client req w :
  1 <= RetriesMax r ->
  exists new,
    events (snd (doRequestWithRetries r ctx client req w)) = (new ++ events w)%list /\
    (1 <= sends new)%nat.
Proof.
  intros HN.
  destruct (doRequestWithRetries_spec r ctx client req w)
    as (exit & w' & new & _ & Hrun & Hev & _ & _ & Hspec).
  exists new. rewrite Hrun. split; [assumption|].
  unfold exit_spec in Hspec. rewrite Z.sub_0_r in Hspec.
  destruct exit as [b s e|resp' b e].
  - destruct Hspec as (rsp & id & rest & _ & _ & _ & _ & Hb & _). lia.
  - destruct Hspec as (Hse & _). lia.
Qed.

(** X8.  [HttpDelete] is stricter about the URL than the other methods.
    A URL that [url.ParseRequestURI] refuses makes [HttpDelete] return
    that error without sending, even when [url.Parse] accepts the same
    URL, in which case [HttpGet] with the same configuration goes on to
    send. *)
Theorem HttpDelete_refuses_what_HttpGet_sends r ctx w u u' e :
  URL r = Some u ->
  url_ParseRequestURI (URL_String u) = inr e ->
  url_Parse (URL_String u) = inl u' ->
  1 <= RetriesMax r ->
  refused_without_sending (HttpDelete r ctx w) e w /\
  exists new,
    events (snd (HttpGet r ctx w)) = (new ++ events w)%list /\
    (1 <= sends new)%nat.
Proof.
  intros Hu Hreq Hparse HN. split.
  - destruct (GetSingletonHttpClient_run w) as (Hc & _ & Hnet & Hev & _).
    unfold refused_without_sending, HttpDelete, bind, URL_deref_String, ret.
    rewrite Hu.
    destruct (GetSingletonHttpClient w) as [res w1]. simpl in Hc, Hnet, Hev.
    subst res. simpl. rewrite Hreq. simpl. auto.
  - rewrite (HttpGet_runs_the_loop _ _ _ _ _ Hu Hparse).
    destruct (GetSingletonHttpClient_run w) as (_ & _ & _ & Hev & _).
    destruct (doRequestWithRetries_sends r ctx (client_of w)
                (mkRequest MethodGet u' (Header r) None)
                (snd (GetSingletonHttpClient w)) HN) as (new & Hev' & Hse).
    exists new. rewrite Hev', Hev. auto.
Qed.

Lemma doRequestWithRetries_allocated r ctx client req w :
  allocated (snd (doRequestWithRetries r ctx client req w)) = allocated w.
Proof.
  destruct (doRequestWithRetries_spec r ctx client req w)
    as (exit & w' & new & _ & Hrun & _ & _ & Hal & _).
  rewrite Hrun. exact Hal.
Qed.

Ltac method_keeps_or_makes w :=
  unfold client_kept_or_made, bind, URL_deref_String, ret, panic;
  destruct (GetSingletonHttpClient_run w) as (Hc & Hcl & _ & _ & _ & Hal);
  destruct (GetSingletonHttpClient w) as [res w1]; simpl in Hc, Hcl, Hal;
  subst res;
  repeat match goal with
         | |- context [match URL ?r with _ => _ end] => destruct (URL r); simpl
         | |- context [match url_ParseRequestURI ?s with _ => _ end] =>
             destruct (url_ParseRequestURI s); simpl
         | |- context [match http_NewRequest ?m ?s ?b with _ => _ end] =>
             destruct (http_NewRequest m s b); simpl
         end;
  rewrite ?doRequestWithRetries_httpClient, ?doRequestWithRetries_allocated;
  split; assumption.

(** X9.  No request method ever makes a second client.  After any call,
    whether it returned or panicked, [httpClient] holds the client the
    call worked with, and the number of clients allocated has grown by
    one if [httpClient] was nil before the call and not at all
    otherwise. *)
Theorem request_methods_allocate_at_most_one_client r ctx object w :
  client_kept_or_made w (HttpGet r ctx w) /\
  client_kept_or_made w (HttpPost r ctx object w) /\
  client_kept_or_made w (HttpPatch r ctx object w) /\
  client_kept_or_made w (HttpPut r ctx object w) /\
  client_kept_or_made w (HttpDelete r ctx w).
Proof.
  split; [|split; [|split; [|split]]].
  - unfold HttpGet. method_keeps_or_makes w.
  - unfold HttpPost. method_keeps_or_makes w.
  - unfold HttpPatch. method_keeps_or_makes w.
  - unfold HttpPut. method_keeps_or_makes w.
  - unfold HttpDelete. method_keeps_or_makes w.
Qed.

(** ** Construction *)

Lemma Header_Get_Set_eq (h : http_Header) key v :
  Header_Get (Header_Set h key v) key = v.
Proof. unfold Header_Get, Header_Set. rewrite lookup_insert_eq. reflexivity. Qed.

(** X10.  The configuration [NewHttpRequest] builds always has a header
    map, in which [Content-Type] and [Authorization] have a non-empty
    first value; [Accept] has one too unless the caller's own [Accept]
    values begin with an empty string. *)
Theorem built_headers_are_not_empty (o : HttpRequestOptions) :
  exists h : http_Header,
    Header (NewHttpRequest o) = Some h /\
    Header_Get h "Content-Type" <> "" /\
    Header_Get h "Authorization" <> "" /\
    (Header_Get h "Accept" = "" <->
     exists vs, default ∅ (o_Header o) !! "Accept" = Some ("" :: vs)).
Proof.
  set (h0 := default ∅ (o_Header o) : http_Header).
  assert (Hh0 : match o_Header o with Some h => h | None => ∅ end = h0)
    by (unfold h0; destruct (o_Header o); reflexivity).
  eexists. split.
  { unfold NewHttpRequest. simpl. rewrite Hh0. reflexivity. }
  rewrite Header_Add_three.
  set (h1 := if String.eqb (Header_Get h0 "Accept") ""
             then <[ "Accept" := (default [] (h0 !! "Accept")
                       ++ ["application/vnd.api+json"; "application/json"; "*/*"])%list ]> h0
             else h0).
  set (h2 := if String.eqb (Header_Get h1 "Content-Type") ""
             then Header_Set h1 "Content-Type" "application/vnd.api+json"
             else h1).
  set (h3 := if String.eqb (Header_Get h2 "Authorization") ""
             then Header_Set h2 "Authorization" ("Bearer " +:+ o_Token o)
             else h2).
  assert (H2 : Header_Get h2 "Content-Type" <> "").
  { unfold h2. destruct (String.eqb (Header_Get h1 "Content-Type") "") eqn:E.
    - rewrite Header_Get_Set_eq. discriminate.
    - apply String.eqb_neq. assumption. }
  assert (K3 : forall key, key <> "Authorization" ->
                           Header_Get h3 key = Header_Get h2 key).
  { intros key Hk. unfold h3.
    destruct (String.eqb (Header_Get h2 "Authorization") ""); [|reflexivity].
    apply Header_Get_Set_ne. congruence. }
  assert (K2 : forall key, key <> "Content-Type" ->
                           Header_Get h2 key = Header_Get h1 key).
  { intros key Hk. unfold h2.
    destruct (String.eqb (Header_Get h1 "Content-Type") ""); [|reflexivity].
    apply Header_Get_Set_ne. congruence. }
  split; [rewrite K3 by discriminate; assumption|].
  split.
  { unfold h3. destruct (String.eqb (Header_Get h2 "Authorization") "") eqn:E.
    - rewrite Header_Get_Set_eq. discriminate.
    - apply String.eqb_neq. assumption. }
  rewrite K3, K2 by discriminate.
  unfold h1, Header_Get at 1 2.
  destruct (h0 !! "Accept") as [[|v vs]|] eqn:Hacc; simpl.
  - rewrite lookup_insert_eq. simpl.
    split; [discriminate | intros [vs H]; discriminate].
  - destruct (String.eqb v "") eqn:E.
    + apply String.eqb_eq in E. subst v.
      rewrite lookup_insert_eq. simpl. split; eauto.
    + apply String.eqb_neq in E. rewrite Hacc.
      split; [intros H; contradiction | intros [vs' H]; congruence].
  - rewrite lookup_insert_eq. simpl.
    split; [discriminate | intros [vs H]; discriminate].
Qed.

End Methods.

(** * The error message *)

Section Message.
Context `{P : Platform}.

Lemma strip_prefix_app p s : strip_prefix p (p +:+ s) = Some s.
Proof.
  induction p as [|a p IH]; simpl; [reflexivity|].
  rewrite Ascii.eqb_refl. exact IH.
Qed.

Lemma split_at_comma_uint d s :
  split_at_comma (NilEmpty.string_of_uint d +:+ String "," s)
  = (NilEmpty.string_of_uint d, s).
Proof. induction d; simpl; rewrite ?IHd; reflexivity. Qed.

Lemma split_at_comma_fmt_d n s :
  split_at_comma (fmt_d n +:+ String "," s) = (fmt_d n, s).
Proof.
  unfold fmt_d, NilZero.string_of_int, NilZero.string_of_uint.
  destruct (Z.to_int n) as [d|d]; destruct d; simpl;
    rewrite ?split_at_comma_uint; reflexivity.
Qed.

Lemma read_d_fmt_d n : read_d (fmt_d n) = Some n.
Proof.
  unfold read_d, fmt_d.
  rewrite NilZero.isi.
  - simpl. rewrite DecimalZ.of_to. reflexivity.
  - destruct n; simpl; try discriminate.
    intros [= H]. exact (Unsigned.to_uint_nonnil _ H).
  - destruct n; simpl; try discriminate.
    intros [= H]. exact (Unsigned.to_uint_nonnil _ H).
Qed.

(** X11.  [ExtractErrorFromResponse] panics on a nil URL and otherwise
    makes a message from which both status codes can be read back, as
    the numbers that were given, whatever the URL and the response body
    contain. *)
Theorem status_codes_can_be_read_back expectedStatus actualStatusCode u responseBody :
  ExtractErrorFromResponse expectedStatus actualStatusCode None responseBody
    = Panic NilDereference /\
  exists msg,
    ExtractErrorFromResponse expectedStatus actualStatusCode (Some u) responseBody
      = Val msg /\
    status_codes_of_message msg = Some (expectedStatus, actualStatusCode).
Proof.
  split; [reflexivity|].
  eexists. split; [reflexivity|].
  unfold status_codes_of_message.
  rewrite strip_prefix_app.
  change ("," +:+ ?x) with (String "," x).
  rewrite split_at_comma_fmt_d.
  change (LF +:+ "actual: " +:+ ?x) with ((LF +:+ "actual: ") +:+ x).
  rewrite strip_prefix_app.
  change ("," +:+ ?x) with (String "," x).
  rewrite split_at_comma_fmt_d, !read_d_fmt_d.
  reflexivity.
Qed.

End Message.

(** * More of the package at work *)

(** A message as [ExtractErrorFromResponse] writes it. *)
Example ExtractErrorFromResponse_message :
  @ExtractErrorFromResponse test_server 200 404 (Some "http://127.0.0.1:38291/x")
    not_found_body
  = Val ("expected 200," +:+ LF +:+ "actual: 404," +:+ LF +:+
         "URL: http://127.0.0.1:38291/x," +:+ LF +:+ "response: no such page").
Proof. reflexivity. Qed.

Lemma retries_until_a_response_is_accepted_witness :
  exists w' new,
    @doRequestWithRetries flaky_server (NewHttpRequest flaky_options) [] O get_ping
      (@fresh_world flaky_server O)
      = (Val (flaky_body, 200, None), w') /\
    events w' = (new ++ events (@fresh_world flaky_server O))%list /\
    sends new = 3%nat /\
    sleeps new = 2%nat /\
    last_send new = Some (DoOk (mkResponse 200 (mkReadCloser flaky_body None))).
Proof.
  apply (@retries_until_a_response_is_accepted flaky_server
           (NewHttpRequest flaky_options) [] O get_ping (@fresh_world flaky_server O)
           (mkResponse 200 (mkReadCloser flaky_body None)) 2).
  - eapply settles_later; [reflexivity | reflexivity |].
    eapply settles_later; [reflexivity | reflexivity |].
    eapply settles_now; reflexivity.
  - vm_compute. reflexivity.
Defined.

Lemma an_error_is_returned_only_after_all_attempts_witness :
  1 <= RetriesMax (NewHttpRequest redirected_options) /\
  exists new out rsp,
    events (snd (@doRequestWithRetries redirecting (NewHttpRequest redirected_options)
                   [] O get_loop (@fresh_world redirecting tt)))
      = (new ++ events (@fresh_world redirecting tt))%list /\
    sends new = Z.to_nat (RetriesMax (NewHttpRequest redirected_options)) /\
    sleeps new = Z.to_nat (RetriesMax (NewHttpRequest redirected_options)) /\
    last_send new = Some out /\
    locals_after out = (Some rsp, [], Some "stopped after 10 redirects") /\
    302 = StatusCode rsp.
Proof.
  apply (@an_error_is_returned_only_after_all_attempts redirecting
           (NewHttpRequest redirected_options) [] O get_loop
           (@fresh_world redirecting tt) [] 302 "stopped after 10 redirects").
  vm_compute. reflexivity.
Defined.

Lemma the_context_does_not_steer_a_call_witness :
  fst (@doRequestWithRetries test_server api [] O
         (mkRequest MethodPost "http://127.0.0.1:38291" (Header api) (Some requestBody))
         test_world)
    = fst (@doRequestWithRetries test_server api [("RequestId", "from the caller")] O
             (mkRequest MethodPost "http://127.0.0.1:38291" (Header api) (Some requestBody))
             later_test_world) /\
  net (snd (@doRequestWithRetries test_server api [] O
              (mkRequest MethodPost "http://127.0.0.1:38291" (Header api) (Some requestBody))
              test_world))
    = net (snd (@doRequestWithRetries test_server api [("RequestId", "from the caller")] O
                  (mkRequest MethodPost "http://127.0.0.1:38291" (Header api) (Some requestBody))
                  later_test_world)).
Proof.
  apply (@the_context_does_not_steer_a_call test_server api []
           [("RequestId", "from the caller")] O
           (mkRequest MethodPost "http://127.0.0.1:38291" (Header api) (Some requestBody))
           test_world later_test_world).
  reflexivity.
Defined.

Lemma request_methods_send_what_they_built_witness :
  call_made_with api
    (mkRequest MethodGet "http://127.0.0.1:38291" (Header api) None) test_world
    (@HttpGet test_server api [] test_world) /\
  call_made_with api
    (mkRequest MethodPost "http://127.0.0.1:38291" (Header api) (Some requestBody))
    test_world (@HttpPost test_server api [] requestBody test_world) /\
  call_made_with api
    (mkRequest MethodPatch "http://127.0.0.1:38291" (Header api) (Some requestBody))
    test_world (@HttpPatch test_server api [] requestBody test_world) /\
  call_made_with api
    (mkRequest MethodPut "http://127.0.0.1:38291" (Header api) (Some requestBody))
    test_world (@HttpPut test_server api [] requestBody test_world) /\
  (forall u1 u2 : string,
     toy_ParseRequestURI "http://127.0.0.1:38291" = inl u1 ->
     toy_Parse u1 = inl u2 ->
     call_made_with api (mkRequest MethodDelete u2 (Header api) None) test_world
       (@HttpDelete test_server api [] test_world)).
Proof.
  apply (@request_methods_send_what_they_built test_server api [] requestBody
           test_world "http://127.0.0.1:38291" "http://127.0.0.1:38291");
    reflexivity.
Defined.

Lemma nil_URL_panics_before_any_send_witness :
  panicked_without_sending
    (@HttpGet test_server (NewHttpRequest no_URL_options) [] test_world) test_world /\
  panicked_without_sending
    (@HttpPost test_server (NewHttpRequest no_URL_options) [] requestBody test_world)
    test_world /\
  panicked_without_sending
    (@HttpPatch test_server (NewHttpRequest no_URL_options) [] requestBody test_world)
    test_world /\
  panicked_without_sending
    (@HttpPut test_server (NewHttpRequest no_URL_options) [] requestBody test_world)
    test_world /\
  panicked_without_sending
    (@HttpDelete test_server (NewHttpRequest no_URL_options) [] test_world) test_world.
Proof.
  apply (@nil_URL_panics_before_any_send test_server (NewHttpRequest no_URL_options)
           [] requestBody test_world).
  reflexivity.
Defined.

Lemma HttpDelete_refuses_what_HttpGet_sends_witness :
  refused_without_sending
    (@HttpDelete test_server (NewHttpRequest empty_URL_options) [] test_world)
    "empty url" test_world /\
  exists new,
    events (snd (@HttpGet test_server (NewHttpRequest empty_URL_options) [] test_world))
      = (new ++ events test_world)%list /\
    (1 <= sends new)%nat.
Proof.
  apply (@HttpDelete_refuses_what_HttpGet_sends test_server
           (NewHttpRequest empty_URL_options) [] test_world "" "" "empty url").
  - reflexivity.
  - reflexivity.
  - reflexivity.
  - vm_compute. discriminate.
Defined.
